(** * HarmonyPlayer: the audio playback engine of [harmony_player.py]

    A shallow embedding of [AudioEngine] (media loading, the play entry
    point, the crossfade start and its timer handler) and of the volume
    and mute handlers of [MusicPlayer], followed by the properties of the
    playback contract proved about them.

    The VLC binding and the Qt timer are external to the repository. They
    appear here as small records holding exactly the fields the engine
    reads or writes, and as an oracle record [Backend] for the calls whose
    outcome the engine cannot decide (opening a resource, parsing it,
    starting the decoder). *)

From Stdlib Require Import ZArith String Ascii List Bool Lia QArith.
From stdpp Require Import base option gmap strings.
Import ListNotations.

Local Open Scope string_scope.
Local Open Scope Z_scope.

(** ** The media backend (python-vlc) *)

Module Vlc.

(** [vlc.Media]: the resource locator and whether its metadata was
    parsed. *)
Record Media := mkMedia {
  mrl : string;
  parsed : bool
}.

(** [vlc.MediaPlayer]: one backend handle. [volume] is what
    [audio_get_volume] reports, [equalizer] the band gains (in dB) last
    pushed with [set_equalizer]. *)
Record MediaPlayer := mkMediaPlayer {
  media : option Media;
  volume : Z;
  playing : bool;
  equalizer : list Q
}.

Definition media_player_new : MediaPlayer :=
  {| media := None; volume := 100; playing := false; equalizer := [] |}.

Definition set_media (m : Media) (p : MediaPlayer) : MediaPlayer :=
  {| media := Some m; volume := volume p; playing := playing p;
     equalizer := equalizer p |}.

Definition audio_set_volume (v : Z) (p : MediaPlayer) : MediaPlayer :=
  {| media := media p; volume := v; playing := playing p;
     equalizer := equalizer p |}.

Definition audio_get_volume (p : MediaPlayer) : Z := volume p.

Definition set_equalizer (bands : list Q) (p : MediaPlayer) : MediaPlayer :=
  {| media := media p; volume := volume p; playing := playing p;
     equalizer := bands |}.

(** Outcome of a call that may raise a Python exception. *)
Inductive result (A : Type) : Type :=
| Ok (a : A)
| Raised (e : string).
Arguments Ok {A} a.
Arguments Raised {A} e.

(** What the engine cannot decide by itself. [media_new] and
    [parse_with_options] may raise; [play_status] is the integer
    returned by [MediaPlayer.play] (0 when playback started). *)
Record Backend := mkBackend {
  media_new : string -> result Media;
  parse_with_options : Media -> result Media;
  play_status : MediaPlayer -> Z
}.

(** [MediaPlayer.play]: the status code, and the handle, which is
    playing when the status is 0. *)
Definition mp_play (vlc : Backend) (p : MediaPlayer) : Z * MediaPlayer :=
  let r := play_status vlc p in
  (r, if r =? 0
      then {| media := media p; volume := volume p; playing := true;
              equalizer := equalizer p |}
      else p).

End Vlc.
Import Vlc.

(** ** The Qt timer *)

Record QTimer := mkQTimer {
  isActive : bool;
  interval : Z
}.

Definition QTimer_new : QTimer := {| isActive := false; interval := 0 |}.

(** [QTimer.start(msec)] *)
Definition timer_start (msec : Z) (t : QTimer) : QTimer :=
  {| isActive := true; interval := msec |}.

(** ** AudioEngine *)

(** The attributes of [AudioEngine] that its methods read or write.
    [fade_out_player] is [None] in Python when no outgoing handle
    exists. *)
Record AudioEngine := mkAudioEngine {
  player : MediaPlayer;
  engine_equalizer : list Q;
  current_media : option Media;
  crossfade_timer : QTimer;
  crossfade_duration : Z;
  fade_out_player : option MediaPlayer
}.

Definition with_player (p : MediaPlayer) (self : AudioEngine) : AudioEngine :=
  {| player := p; engine_equalizer := engine_equalizer self;
     current_media := current_media self;
     crossfade_timer := crossfade_timer self;
     crossfade_duration := crossfade_duration self;
     fade_out_player := fade_out_player self |}.

Definition with_engine_equalizer (g : list Q) (self : AudioEngine) : AudioEngine :=
  {| player := player self; engine_equalizer := g;
     current_media := current_media self;
     crossfade_timer := crossfade_timer self;
     crossfade_duration := crossfade_duration self;
     fade_out_player := fade_out_player self |}.

Definition with_current_media (m : option Media) (self : AudioEngine) : AudioEngine :=
  {| player := player self; engine_equalizer := engine_equalizer self;
     current_media := m;
     crossfade_timer := crossfade_timer self;
     crossfade_duration := crossfade_duration self;
     fade_out_player := fade_out_player self |}.

Definition with_crossfade_timer (t : QTimer) (self : AudioEngine) : AudioEngine :=
  {| player := player self; engine_equalizer := engine_equalizer self;
     current_media := current_media self;
     crossfade_timer := t;
     crossfade_duration := crossfade_duration self;
     fade_out_player := fade_out_player self |}.

Definition with_fade_out_player (p : option MediaPlayer) (self : AudioEngine) : AudioEngine :=
  {| player := player self; engine_equalizer := engine_equalizer self;
     current_media := current_media self;
     crossfade_timer := crossfade_timer self;
     crossfade_duration := crossfade_duration self;
     fade_out_player := p |}.

(** *** Methods as state transformers that may raise

    A method runs on the engine and yields either a value or an exception,
    together with the engine as the call left it: an exception does not
    undo the attribute writes made before it. *)

Definition M (A : Type) : Type := AudioEngine -> result A * AudioEngine.

Definition ret {A} (a : A) : M A := fun self => (Ok a, self).

Definition raise {A} (e : string) : M A := fun self => (Raised e, self).

Definition bind {A B} (m : M A) (k : A -> M B) : M B :=
  fun self =>
    match m self with
    | (Ok a, self') => k a self'
    | (Raised e, self') => (Raised e, self')
    end.

(** Whether an exception, named by its class, is an instance of
    [Exception]: all are, except the three classes that derive from
    [BaseException] directly. *)
Definition is_Exception (e : string) : bool :=
  negb (String.prefix "KeyboardInterrupt" e
        || String.prefix "SystemExit" e
        || String.prefix "GeneratorExit" e).

(** [try: body except Exception as e: handler e]. An exception that is
    not an [Exception] is not caught. *)
Definition try_except {A} (body : M A) (handler : string -> M A) : M A :=
  fun self =>
    match body self with
    | (Ok a, self') => (Ok a, self')
    | (Raised e, self') =>
        if is_Exception e then handler e self' else (Raised e, self')
    end.

(** An external call that may raise and does not touch the engine. *)
Definition call {A} (r : result A) : M A := fun self => (r, self).

Definition gets {A} (f : AudioEngine -> A) : M A := fun self => (Ok (f self), self).

Definition modify (f : AudioEngine -> AudioEngine) : M unit :=
  fun self => (Ok tt, f self).

Declare Scope engine_scope.
Delimit Scope engine_scope with engine.
Notation "x <- m ;; k" := (bind m (fun x => k))
  (at level 100, m at next level, right associativity) : engine_scope.
Notation "m ;; k" := (bind m (fun _ => k))
  (at level 100, right associativity) : engine_scope.

Section Engine.

Variable vlc : Backend.

Local Open Scope engine_scope.

(** [AudioEngine.load_file]. The [logger.error] call of the handler
    writes to the log only and is left out. *)
Definition load_file (file_path : string) : M bool :=
  try_except
    (media <- call (media_new vlc file_path) ;;
     media <- call (parse_with_options vlc media) ;;
     modify (fun self => with_player (set_media media (player self)) self) ;;
     modify (with_current_media (Some media)) ;;
     ret true)
    (fun _ => ret false).

(** [AudioEngine.start_crossfade]. With [fade_out_player] equal to
    [None] the second statement raises [AttributeError], after the timer
    was started. *)
Definition start_crossfade : M unit :=
  modify (fun self =>
    with_crossfade_timer (timer_start 100 (crossfade_timer self)) self) ;;
  out <- gets fade_out_player ;;
  match out with
  | None => raise "AttributeError"
  | Some out =>
      modify (with_fade_out_player (Some (audio_set_volume 100 out))) ;;
      modify (fun self => with_player (audio_set_volume 0 (player self)) self) ;;
      modify (fun self => with_player (snd (mp_play vlc (player self))) self)
  end.

(** [AudioEngine.play] *)
Definition play : M bool :=
  duration <- gets crossfade_duration ;;
  out <- gets fade_out_player ;;
  if (0 <? duration) && bool_decide (is_Some out)
  then start_crossfade ;; ret true
  else
    p <- gets player ;;
    let '(status, p') := mp_play vlc p in
    modify (with_player p') ;;
    ret (status =? 0).

(** [AudioEngine.handle_crossfade]: the body is [pass]. *)
Definition handle_crossfade : M unit := ret tt.

(** One expiry of [crossfade_timer]: the connected handler runs when the
    timer is active. *)
Definition tick (self : AudioEngine) : AudioEngine :=
  if isActive (crossfade_timer self)
  then snd (handle_crossfade self)
  else self.

Fixpoint ticks (n : nat) (self : AudioEngine) : AudioEngine :=
  match n with
  | O => self
  | S n' => ticks n' (tick self)
  end.

End Engine.

(** ** Parts of the repository the file refers to but does not define

    [AudioEngine.get_volume], [AudioEngine.set_eq_preset] and
    [MusicPlayer.set_volume] are called in the file and belong to the
    methods it elides; the cancellation path of a crossfade is reached
    only from such methods ([stop], [seek], track change). They are
    modelled from the specification. *)

(** [clamp(v, lo, hi)] *)
Definition clamp (v lo hi : Z) : Z := Z.max lo (Z.min hi v).

(** Modelled from the spec: [AudioEngine.get_volume], the read-only
    observer [volume()]. It reports the volume of the live handle, which
    the engine keeps in [player]. *)
Definition get_volume (self : AudioEngine) : Z :=
  audio_get_volume (player self).

(** Modelled from the spec: the engine side of [setVolume(level)], missing
    from the file. The level is clamped to [0,100] and applied to
    whichever handles exist (both during a crossfade). *)
Definition engine_set_volume (level : Z) (self : AudioEngine) : AudioEngine :=
  let v := clamp level 0 100 in
  with_fade_out_player
    (option_map (audio_set_volume v) (fade_out_player self))
    (with_player (audio_set_volume v (player self)) self).

(** ASCII lower-casing of a preset name. *)
Definition lower_char (c : ascii) : ascii :=
  let n := nat_of_ascii c in
  if ((65 <=? n) && (n <=? 90))%nat then ascii_of_nat (n + 32) else c.

Fixpoint lower (s : string) : string :=
  match s with
  | EmptyString => EmptyString
  | String c rest => String (lower_char c) (lower rest)
  end.

Section Equalizer.

(** The Equalizer Profile Store: preset name (lower case) to ordered
    band gains. Its contents are not part of the file. *)
Variable EQ_PRESETS : gmap string (list Q).

(** Number of bands the backend expects. *)
Variable band_count : nat.

(** The all-zero preset. *)
Definition flat_gains : list Q := replicate band_count 0%Q.

(** Modelled from the spec: the lookup of the Equalizer Profile Store,
    missing from the file. The name is resolved case-insensitively and a
    miss falls back to the flat preset. *)
Definition resolve_preset (name : string) : list Q :=
  match EQ_PRESETS !! lower name with
  | Some gains => gains
  | None => flat_gains
  end.

(** Modelled from the spec: [AudioEngine.set_eq_preset], missing from
    the file. The resolved gains are pushed to the live handle, and to
    the outgoing one as well during a crossfade. *)
Definition set_eq_preset (name : string) (self : AudioEngine) : AudioEngine :=
  let gains := resolve_preset name in
  with_fade_out_player
    (option_map (set_equalizer gains) (fade_out_player self))
    (with_player (set_equalizer gains (player self))
       (with_engine_equalizer gains self)).

(** [AudioEngine.__init__]: a fresh player, the flat preset, an idle
    timer connected to [handle_crossfade], a duration of 3 seconds and
    no outgoing handle. *)
Definition AudioEngine_init : AudioEngine :=
  with_fade_out_player None
    (set_eq_preset "flat"
       {| player := media_player_new;
          engine_equalizer := [];
          current_media := None;
          crossfade_timer := QTimer_new;
          crossfade_duration := 3;
          fade_out_player := None |}).

End Equalizer.

(** ** MusicPlayer *)

(** The attributes of [MusicPlayer] used by the volume and mute handlers.
    [last_volume] is [None] as long as the attribute was never assigned
    ([hasattr(self, 'last_volume')] is false). *)
Record MusicPlayer := mkMusicPlayer {
  audio_engine : AudioEngine;
  last_volume : option Z
}.

(** Modelled from the spec: [MusicPlayer.set_volume], missing from the
    file; it forwards to the engine, which clamps. *)
Definition set_volume (level : Z) (self : MusicPlayer) : MusicPlayer :=
  {| audio_engine := engine_set_volume level (audio_engine self);
     last_volume := last_volume self |}.

(** [MusicPlayer.toggle_mute] *)
Definition toggle_mute (self : MusicPlayer) : MusicPlayer :=
  let current := get_volume (audio_engine self) in
  if 0 <? current
  then
    set_volume 0 {| audio_engine := audio_engine self;
                    last_volume := Some current |}
  else
    set_volume (match last_volume self with
                | Some v => v
                | None => 70
                end) self.

(** [MusicPlayer.__init__], as far as the engine is concerned: a fresh
    engine, then [set_volume] with the configured volume (70 in
    [DEFAULT_CONFIG]). [last_volume] is not assigned. *)
Definition MusicPlayer_init (engine : AudioEngine) (config_volume : Z)
  : MusicPlayer :=
  set_volume config_volume {| audio_engine := engine; last_volume := None |}.

(** The two volume shortcuts of [MusicPlayer.init_hotkeys]. *)
Definition hotkey_volume_up (self : MusicPlayer) : MusicPlayer :=
  set_volume (Z.min 100 (get_volume (audio_engine self) + 5)) self.

Definition hotkey_volume_down (self : MusicPlayer) : MusicPlayer :=
  set_volume (Z.max 0 (get_volume (audio_engine self) - 5)) self.

(** ** The crossfade contract: cancellation *)

Module CrossfadeController.

(** Modelled from the spec: the crossfade session, which the file keeps
    implicitly in two plain fields and for which it has no cancellation
    code. Either one live handle, or an outgoing and an incoming handle
    with the elapsed time, the total duration and the base volume
    captured when the fade began. *)
Inductive CrossfadeSession :=
| Settled (live : MediaPlayer)
| Fading (outgoing incoming : MediaPlayer)
         (elapsed duration : Z) (base_volume : Z).

(** Modelled from the spec: the controller state around the session: the
    session itself, whether the periodic tick is scheduled, and the
    handles released so far. *)
Record Controller := mkController {
  session : CrossfadeSession;
  tick_running : bool;
  released : list MediaPlayer
}.

(** Elapsed fraction strictly between 0 and 1. *)
Definition mid_fade (elapsed duration : Z) : Prop :=
  0 < elapsed < duration.

(** Modelled from the spec: the handles that are live, two only while
    fading. *)
Definition live_handles (c : Controller) : list MediaPlayer :=
  match session c with
  | Settled live => [live]
  | Fading outgoing incoming _ _ _ => [outgoing; incoming]
  end.

(** Modelled from the spec: the outgoing handle, if any. *)
Definition outgoing_handles (c : Controller) : list MediaPlayer :=
  match session c with
  | Settled _ => []
  | Fading outgoing _ _ _ _ => [outgoing]
  end.

(** Modelled from the spec: cancellation of an active session, the
    first step of [stop], [seek] and of a new track advance. The
    outgoing handle is released, the incoming one snaps to the base
    volume and becomes the live handle, the tick is cancelled. *)
Definition cancel (c : Controller) : Controller :=
  match session c with
  | Settled _ => c
  | Fading outgoing incoming _ _ base_volume =>
      {| session := Settled (audio_set_volume base_volume incoming);
         tick_running := false;
         released := outgoing :: released c |}
  end.

(** Modelled from the spec: the commands that cancel a session before
    their own effect. *)
Inductive Command :=
| Stop
| Seek (position : Z)
| AdvanceTrack.

(** Modelled from the spec: the settle point of a command, reached
    before the command's own effect is applied. *)
Definition settle (cmd : Command) (c : Controller) : Controller :=
  match cmd with
  | Stop | Seek _ | AdvanceTrack => cancel c
  end.

End CrossfadeController.

(** ** Concrete backends and states used in examples *)

(** A backend that opens and parses every locator and always starts. *)
Definition permissive_backend : Backend :=
  {| media_new := fun path => Ok {| mrl := path; parsed := false |};
     parse_with_options := fun m => Ok {| mrl := mrl m; parsed := true |};
     play_status := fun _ => 0 |}.

(** A backend that can open two resources only: [media_new] raises for
    every locator but ["a.mp3"] and ["b.mp3"]. *)
Definition strict_backend : Backend :=
  {| media_new := fun path =>
       if bool_decide (path = "a.mp3") || bool_decide (path = "b.mp3")
       then Ok {| mrl := path; parsed := false |}
       else Raised "FileNotFoundError";
     parse_with_options := fun m => Ok {| mrl := mrl m; parsed := true |};
     play_status := fun p => if bool_decide (is_Some (media p)) then 0 else -1 |}.

Definition track_a : Media := {| mrl := "a.mp3"; parsed := true |}.
Definition track_b : Media := {| mrl := "b.mp3"; parsed := true |}.

(** Track A playing alone at volume 60, crossfade disabled. *)
Definition engine_playing_a : AudioEngine :=
  {| player := {| media := Some track_a; volume := 60; playing := true;
                  equalizer := [] |};
     engine_equalizer := [];
     current_media := Some track_a;
     crossfade_timer := QTimer_new;
     crossfade_duration := 0;
     fade_out_player := None |}.

(** Track B bound to the live handle while track A still plays on the
    outgoing handle, both at the master volume 60, duration 3 seconds:
    the state in which [play] starts a crossfade. *)
Definition engine_before_fade : AudioEngine :=
  {| player := {| media := Some track_b; volume := 60; playing := false;
                  equalizer := [] |};
     engine_equalizer := [];
     current_media := Some track_b;
     crossfade_timer := QTimer_new;
     crossfade_duration := 3;
     fade_out_player :=
       Some {| media := Some track_a; volume := 60; playing := true;
               equalizer := [] |} |}.

(** A store with the flat preset and one curve, over ten bands. *)
Definition sample_presets : gmap string (list Q) :=
  <[ "flat" := replicate 10 0%Q ]>
  (<[ "rock" := [8; 5; -5; -8; -3; 4; 9; 11; 11; 11]%Q ]> ∅).

(** The engine right after [start_crossfade] found an outgoing handle. *)
Definition started (vlc : Backend) (out : MediaPlayer) (self : AudioEngine)
  : AudioEngine :=
  {| player := snd (mp_play vlc (audio_set_volume 0 (player self)));
     engine_equalizer := engine_equalizer self;
     current_media := current_media self;
     crossfade_timer := {| isActive := true; interval := 100 |};
     crossfade_duration := crossfade_duration self;
     fade_out_player := Some (audio_set_volume 100 out) |}.

(** The backend handles the engine holds: the live one, and the outgoing
    one when there is one. *)
Definition handles (self : AudioEngine) : list MediaPlayer :=
  player self ::
  match fade_out_player self with
  | Some out => [out]
  | None => []
  end.

(** ** Python values used by the theme code *)

Module Py.

(** [str.isspace] on one character of ASCII text: tab to carriage return,
    the four separators 28 to 31, and the space. *)
Definition is_space (c : ascii) : bool :=
  let n := nat_of_ascii c in
  (((9 <=? n) && (n <=? 13)) || ((28 <=? n) && (n <=? 32)))%nat.

(** Every character is below 128. On such text [strip] below is
    [str.strip]; Python also strips the non-ASCII Unicode spaces. *)
Fixpoint ascii_only (s : string) : bool :=
  match s with
  | EmptyString => true
  | String c rest => (nat_of_ascii c <? 128)%nat && ascii_only rest
  end.

Fixpoint lstrip (s : string) : string :=
  match s with
  | EmptyString => EmptyString
  | String c rest => if is_space c then lstrip rest else s
  end.

Fixpoint rstrip (s : string) : string :=
  match s with
  | EmptyString => EmptyString
  | String c rest =>
      match rstrip rest with
      | EmptyString => if is_space c then EmptyString else String c EmptyString
      | kept => String c kept
      end
  end.

(** [s.strip()] *)
Definition strip (s : string) : string := rstrip (lstrip s).

(** [s.split(sep)] for a separator of one character: never empty. *)
Fixpoint split (sep : ascii) (s : string) : list string :=
  match s with
  | EmptyString => [EmptyString]
  | String c rest =>
      if Ascii.eqb c sep then EmptyString :: split sep rest
      else match split sep rest with
           | first :: others => String c first :: others
           | [] => [String c EmptyString]
           end
  end.

(** [needle in hay] *)
Fixpoint contains (needle hay : string) : bool :=
  String.prefix needle hay ||
  match hay with
  | EmptyString => false
  | String _ rest => contains needle rest
  end.

(** No occurrence of the character [c]. *)
Fixpoint lacks (c : ascii) (s : string) : bool :=
  match s with
  | EmptyString => true
  | String d rest => negb (Ascii.eqb d c) && lacks c rest
  end.

(** [l[i]], raising [IndexError] out of range. *)
Definition index {A} (l : list A) (i : nat) : result A :=
  match nth_error l i with
  | Some a => Ok a
  | None => Raised "IndexError: list index out of range"
  end.

(** A [dict] with string keys, in insertion order. *)
Definition dict (V : Type) : Type := list (string * V).

(** [d.get(k)] *)
Fixpoint get {V} (k : string) (d : dict V) : option V :=
  match d with
  | [] => None
  | (k', v) :: rest => if String.eqb k k' then Some v else get k rest
  end.

(** [d[k]], raising [KeyError]. *)
Definition item {V} (k : string) (d : dict V) : result V :=
  match get k d with
  | Some v => Ok v
  | None => Raised ("KeyError: " ++ k)
  end.

(** [d[k] = v]: an existing key keeps its place, a new one goes last. *)
Fixpoint set {V} (k : string) (v : V) (d : dict V) : dict V :=
  match d with
  | [] => [(k, v)]
  | (k', v') :: rest =>
      if String.eqb k k' then (k, v) :: rest else (k', v') :: set k v rest
  end.

(** A method on an object of state [S]: a value or an exception, and the
    object as the call left it. *)
Definition St (S A : Type) : Type := S -> result A * S.

Definition st_ret {S A} (a : A) : St S A := fun s => (Ok a, s).

Definition st_bind {S A B} (m : St S A) (k : A -> St S B) : St S B :=
  fun s =>
    match m s with
    | (Ok a, s') => k a s'
    | (Raised e, s') => (Raised e, s')
    end.

(** A computation that may raise and does not touch the object. *)
Definition st_lift {S A} (r : result A) : St S A := fun s => (r, s).

Definition st_gets {S A} (f : S -> A) : St S A := fun s => (Ok (f s), s).

Definition st_modify {S} (f : S -> S) : St S unit := fun s => (Ok tt, f s).

(** [try: body except: handler], the bare [except] catching everything. *)
Definition st_try {S A} (body : St S A) (handler : St S A) : St S A :=
  fun s =>
    match body s with
    | (Ok a, s') => (Ok a, s')
    | (Raised _, s') => handler s'
    end.

End Py.

Declare Scope py_scope.
Delimit Scope py_scope with py.
Notation "x <- m ;; k" := (Py.st_bind m (fun x => k))
  (at level 100, m at next level, right associativity) : py_scope.
Notation "m ;; k" := (Py.st_bind m (fun _ => k))
  (at level 100, right associativity) : py_scope.

(** ** Themes *)

(** A colour theme: role name to colour string. *)
Definition Theme : Type := Py.dict string.

(** [THEMES], the built-in colour themes. *)
Definition THEMES : Py.dict Theme :=
  [ ("dark",
      [ ("base", "#121212"); ("text", "#ffffff"); ("highlight", "#1db954");
        ("button", "#282828"); ("panel", "#181818") ]);
    ("light",
      [ ("base", "#f5f5f5"); ("text", "#333333"); ("highlight", "#1db954");
        ("button", "#e0e0e0"); ("panel", "#ffffff") ]);
    ("amethyst",
      [ ("base", "#1a1a2e"); ("text", "#e94560"); ("highlight", "#9c27b0");
        ("button", "#16213e"); ("panel", "#0f3460") ]);
    ("midnight",
      [ ("base", "#0a192f"); ("text", "#ccd6f6"); ("highlight", "#64ffda");
        ("button", "#172a45"); ("panel", "#112240") ]);
    ("sunset",
      [ ("base", "#2d3436"); ("text", "#ffeaa7"); ("highlight", "#e17055");
        ("button", "#3c4245"); ("panel", "#353b3c") ]) ].

(** [DEFAULT_CONFIG] *)
Definition DEFAULT_CONFIG : Py.dict (Py.dict string) :=
  [ ("audio",
      [ ("volume", "70"); ("crossfade", "0"); ("eq_preset", "flat");
        ("replaygain", "false"); ("normalization", "true") ]);
    ("appearance",
      [ ("theme", "dark"); ("font_size", "12"); ("accent_color", "#1db954");
        ("custom_theme", "{}"); ("window_opacity", "100") ]);
    ("playback",
      [ ("repeat", "none"); ("shuffle", "false"); ("crossfade_duration", "3");
        ("fade_on_pause", "true") ]);
    ("lyrics",
      [ ("auto_fetch", "true"); ("font_size", "16"); ("alignment", "center") ]) ].

(** [THEMES.get(theme_name, THEMES['dark'])], the lookup of
    [ThemeEditor.theme_changed] and [MusicPlayer.apply_theme]. The default
    is evaluated first. *)
Definition builtin_theme (theme_name : string) : result Theme :=
  match Py.item "dark" THEMES with
  | Ok dark =>
      Ok (match Py.get theme_name THEMES with
          | Some theme => theme
          | None => dark
          end)
  | Raised e => Raised e
  end.

(** ** ThemeEditor *)

(** The five roles a theme colours, in the order [setup_ui] creates their
    buttons. *)
Definition color_names : list string :=
  ["base"; "text"; "highlight"; "button"; "panel"].

(** What [update_preview] paints: the colour strings handed to [QColor]
    for the background, the button, the text, the highlight and the
    panel. *)
Record Preview := mkPreview {
  preview_base : string;
  preview_button : string;
  preview_text : string;
  preview_highlight : string;
  preview_panel : string
}.

(** The attributes of [ThemeEditor] that its methods read or write.
    [color_pickers] maps a role to its button, of which only the style
    sheet matters; [theme_combo] is the text the combo box shows;
    [preview] is the pixmap last painted. *)
Record ThemeEditor := mkThemeEditor {
  theme_combo : string;
  color_pickers : Py.dict string;
  preview : option Preview
}.

Definition with_color_pickers (p : Py.dict string) (self : ThemeEditor)
  : ThemeEditor :=
  {| theme_combo := theme_combo self; color_pickers := p;
     preview := preview self |}.

Definition with_preview (p : option Preview) (self : ThemeEditor)
  : ThemeEditor :=
  {| theme_combo := theme_combo self; color_pickers := color_pickers self;
     preview := p |}.

Definition with_theme_combo (t : string) (self : ThemeEditor) : ThemeEditor :=
  {| theme_combo := t; color_pickers := color_pickers self;
     preview := preview self |}.

(** The style sheet both [pick_color] and [theme_changed] give a button:
    [f"background-color: {color}; border: none;"]. *)
Definition button_style (color : string) : string :=
  "background-color: " ++ color ++ "; border: none;".

(** [style.split(':')[1].split(';')[0].strip()], the colour read back
    from a button by [update_preview] and [save_theme]. *)
Definition style_color (style : string) : result string :=
  match Py.index (Py.split ":" style) 1 with
  | Ok after_colon =>
      match Py.index (Py.split ";" after_colon) 0 with
      | Ok before_semicolon => Ok (Py.strip before_semicolon)
      | Raised e => Raised e
      end
  | Raised e => Raised e
  end.

(** The first loop of [update_preview]: every button gets an entry, black
    when its style sheet sets no background. *)
Fixpoint preview_colors (items : Py.dict string) (colors : Py.dict string)
  : result (Py.dict string) :=
  match items with
  | [] => Ok colors
  | (name, style) :: rest =>
      if Py.contains "background-color" style
      then match style_color style with
           | Ok c => preview_colors rest (Py.set name c colors)
           | Raised e => Raised e
           end
      else preview_colors rest (Py.set name "#000000" colors)
  end.

(** The loop of [save_theme]: only the buttons whose style sheet sets a
    background get an entry. *)
Fixpoint saved_colors (items : Py.dict string) (theme : Theme)
  : result Theme :=
  match items with
  | [] => Ok theme
  | (name, style) :: rest =>
      if Py.contains "background-color" style
      then match style_color style with
           | Ok c => saved_colors rest (Py.set name c theme)
           | Raised e => Raised e
           end
      else saved_colors rest theme
  end.

(** The loop of [theme_changed]: each role of the theme that has a button
    restyles it. *)
Fixpoint restyle (items : Theme) (pickers : Py.dict string)
  : Py.dict string :=
  match items with
  | [] => pickers
  | (name, color) :: rest =>
      restyle rest
        (match Py.get name pickers with
         | Some _ => Py.set name (button_style color) pickers
         | None => pickers
         end)
  end.

Section ThemeEditorMethods.

Local Open Scope py_scope.

(** [ThemeEditor.update_preview] *)
Definition update_preview : Py.St ThemeEditor unit :=
  pickers <- Py.st_gets color_pickers ;;
  colors <- Py.st_lift (preview_colors pickers []) ;;
  base <- Py.st_lift (Py.item "base" colors) ;;
  button <- Py.st_lift (Py.item "button" colors) ;;
  text <- Py.st_lift (Py.item "text" colors) ;;
  highlight <- Py.st_lift (Py.item "highlight" colors) ;;
  panel <- Py.st_lift (Py.item "panel" colors) ;;
  Py.st_modify (with_preview
    (Some {| preview_base := base; preview_button := button;
             preview_text := text; preview_highlight := highlight;
             preview_panel := panel |})).

(** [ThemeEditor.pick_color]. [chosen] is what the colour dialog returned:
    [None] for an invalid colour (the dialog was cancelled), otherwise
    [color.name()]. *)
Definition pick_color (chosen : option string) (color_name : string)
  : Py.St ThemeEditor unit :=
  match chosen with
  | Some color =>
      pickers <- Py.st_gets color_pickers ;;
      _ <- Py.st_lift (Py.item color_name pickers) ;;
      Py.st_modify (with_color_pickers
        (Py.set color_name (button_style color) pickers)) ;;
      update_preview
  | None => Py.st_ret tt
  end.

(** [ThemeEditor.theme_changed] *)
Definition theme_changed (theme_name : string) : Py.St ThemeEditor unit :=
  if String.eqb theme_name "Custom" then Py.st_ret tt
  else
    theme <- Py.st_lift (builtin_theme theme_name) ;;
    Py.st_modify (fun self =>
      with_color_pickers (restyle theme (color_pickers self)) self) ;;
    update_preview.

(** The user, or [setCurrentText], makes the combo box show [text]: the
    connected [theme_changed] runs when the text shown changes. *)
Definition show_theme (text : string) : Py.St ThemeEditor unit :=
  current <- Py.st_gets theme_combo ;;
  if String.eqb current text then Py.st_ret tt
  else Py.st_modify (with_theme_combo text) ;; theme_changed text.

(** [ThemeEditor.reset_theme] *)
Definition reset_theme : Py.St ThemeEditor unit := show_theme "dark".

End ThemeEditorMethods.

(** ** MusicPlayer: themes and accent colour *)

(** The palette [apply_theme] installs, one colour string per role. *)
Record Palette := mkPalette {
  Window : string;
  WindowText : string;
  Base : string;
  AlternateBase : string;
  ToolTipBase : string;
  ToolTipText : string;
  Text : string;
  Button : string;
  ButtonText : string;
  BrightText : string;
  Highlight : string;
  HighlightedText : string
}.

(** The attributes of [MusicPlayer] that the theme handlers read or
    write: the configuration (a mapping of sections to options), the
    custom theme, the application palette and the style sheet of the
    window. [load_config] is not defined in the file: the configuration
    is whatever it returned, it is only used as
    [config[section][option]] and is taken as a dict of dicts. *)
Record MainWindow := mkMainWindow {
  config : Py.dict (Py.dict string);
  custom_theme : Theme;
  app_palette : option Palette;
  style_sheet : string
}.

Definition with_config (c : Py.dict (Py.dict string)) (self : MainWindow)
  : MainWindow :=
  {| config := c; custom_theme := custom_theme self;
     app_palette := app_palette self; style_sheet := style_sheet self |}.

Definition with_custom_theme (t : Theme) (self : MainWindow) : MainWindow :=
  {| config := config self; custom_theme := t;
     app_palette := app_palette self; style_sheet := style_sheet self |}.

Definition with_app_palette (p : option Palette) (self : MainWindow)
  : MainWindow :=
  {| config := config self; custom_theme := custom_theme self;
     app_palette := p; style_sheet := style_sheet self |}.

Definition with_style_sheet (s : string) (self : MainWindow) : MainWindow :=
  {| config := config self; custom_theme := custom_theme self;
     app_palette := app_palette self; style_sheet := s |}.

(** The style sheet of [apply_theme]. *)
Definition theme_style_sheet (base button text panel accent : string)
  : string :=
  String.concat ""
  ["
            QMainWindow {
                background-color: ";
   base;
   ";
            }
            QGroupBox {
                border: 1px solid ";
   button;
   ";
                border-radius: 5px;
                margin-top: 10px;
                padding-top: 15px;
                color: ";
   text;
   ";
            }
            QGroupBox::title {
                subcontrol-origin: margin;
                left: 10px;
            }
            QTabBar::tab {
                background: ";
   button;
   ";
                color: ";
   text;
   ";
                padding: 8px;
                border-top-left-radius: 5px;
                border-top-right-radius: 5px;
            }
            QTabBar::tab:selected {
                background: ";
   panel;
   ";
                color: ";
   text;
   ";
                border-bottom: 3px solid ";
   accent;
   ";
            }
            QListWidget {
                background-color: ";
   panel;
   ";
                color: ";
   text;
   ";
                border: 1px solid ";
   button;
   ";
                border-radius: 5px;
            }
            QSlider::groove:horizontal {
                height: 6px;
                background: ";
   button;
   ";
                border-radius: 3px;
            }
            QSlider::handle:horizontal {
                background: ";
   accent;
   ";
                width: 16px;
                margin: -5px 0;
                border-radius: 8px;
            }
            QScrollBar:vertical {
                background: ";
   panel;
   ";
                width: 10px;
            }
            QScrollBar::handle:vertical {
                background: ";
   button;
   ";
                min-height: 20px;
            }
        "].

(** The style sheet of [update_ui_colors]. *)
Definition accent_style_sheet (accent : string) : string :=
  String.concat ""
  ["
            QSlider::handle:horizontal {
                background: ";
   accent;
   ";
            }
            QTabBar::tab:selected {
                border-bottom-color: ";
   accent;
   ";
            }
        "].

(** [json.dumps] and [json.loads] on a theme. [loads] raises on text that
    is not JSON. *)
Record Json := mkJson {
  dumps : Theme -> string;
  loads : string -> result Theme
}.

Section ThemeHandlers.

Variable json : Json.

(** [MusicPlayer.save_config] is called by the handlers but not defined
    in the file. What it does is a parameter: for the window it is called
    on, whether the call returns or which exception it raises. It writes
    the configuration out and is taken to leave the attributes of the
    window alone. *)
Variable save_config_outcome : MainWindow -> result unit.

Local Open Scope py_scope.

(** [self.save_config()] *)
Definition save_config : Py.St MainWindow unit :=
  fun self => (save_config_outcome self, self).

(** [self.config[section][option]] *)
Definition config_item (section option : string)
  : Py.St MainWindow string :=
  cfg <- Py.st_gets config ;;
  options <- Py.st_lift (Py.item section cfg) ;;
  Py.st_lift (Py.item option options).

(** [self.config[section][option] = value] *)
Definition config_set (section option value : string)
  : Py.St MainWindow unit :=
  cfg <- Py.st_gets config ;;
  options <- Py.st_lift (Py.item section cfg) ;;
  Py.st_modify (with_config (Py.set section (Py.set option value options) cfg)).

(** [MusicPlayer.load_custom_theme] *)
Definition load_custom_theme : Py.St MainWindow Theme :=
  Py.st_try
    (text <- config_item "appearance" "custom_theme" ;;
     Py.st_lift (loads json text))
    (Py.st_ret []).

(** [MusicPlayer.apply_theme]. The palette is installed once all its
    colours were looked up; the style sheet reads the theme and the accent
    colour again, in the order base, button, text, panel, accent. *)
Definition apply_theme (theme_name : string) : Py.St MainWindow unit :=
  theme <- (if String.eqb theme_name "custom"
            then Py.st_gets custom_theme
            else Py.st_lift (builtin_theme theme_name)) ;;
  window <- Py.st_lift (Py.item "base" theme) ;;
  window_text <- Py.st_lift (Py.item "text" theme) ;;
  base <- Py.st_lift (Py.item "panel" theme) ;;
  alternate_base <- Py.st_lift (Py.item "button" theme) ;;
  tool_tip_base <- Py.st_lift (Py.item "text" theme) ;;
  tool_tip_text <- Py.st_lift (Py.item "base" theme) ;;
  text <- Py.st_lift (Py.item "text" theme) ;;
  button <- Py.st_lift (Py.item "button" theme) ;;
  button_text <- Py.st_lift (Py.item "text" theme) ;;
  bright_text <- Py.st_lift (Py.item "highlight" theme) ;;
  highlight <- config_item "appearance" "accent_color" ;;
  highlighted_text <- Py.st_lift (Py.item "text" theme) ;;
  Py.st_modify (with_app_palette
    (Some {| Window := window; WindowText := window_text; Base := base;
             AlternateBase := alternate_base; ToolTipBase := tool_tip_base;
             ToolTipText := tool_tip_text; Text := text; Button := button;
             ButtonText := button_text; BrightText := bright_text;
             Highlight := highlight;
             HighlightedText := highlighted_text |})) ;;
  css_base <- Py.st_lift (Py.item "base" theme) ;;
  css_button <- Py.st_lift (Py.item "button" theme) ;;
  css_text <- Py.st_lift (Py.item "text" theme) ;;
  css_panel <- Py.st_lift (Py.item "panel" theme) ;;
  css_accent <- config_item "appearance" "accent_color" ;;
  Py.st_modify (with_style_sheet
    (theme_style_sheet css_base css_button css_text css_panel css_accent)) ;;
  if String.eqb theme_name "custom" then Py.st_ret tt
  else config_set "appearance" "theme" theme_name ;; save_config.

(** [MusicPlayer.save_custom_theme] *)
Definition save_custom_theme (theme : Theme) : Py.St MainWindow unit :=
  Py.st_modify (with_custom_theme theme) ;;
  config_set "appearance" "custom_theme" (dumps json theme) ;;
  save_config ;;
  apply_theme "custom".

(** [MusicPlayer.update_ui_colors] *)
Definition update_ui_colors : Py.St MainWindow unit :=
  accent <- config_item "appearance" "accent_color" ;;
  Py.st_modify (with_style_sheet (accent_style_sheet accent)).

(** [MusicPlayer.apply_accent_color] *)
Definition apply_accent_color (color_hex : string) : Py.St MainWindow unit :=
  config_set "appearance" "accent_color" color_hex ;;
  save_config ;;
  update_ui_colors.

(** [MusicPlayer.change_accent_color]. [chosen] is what the colour dialog
    returned, as for [pick_color]. *)
Definition change_accent_color (chosen : option string)
  : Py.St MainWindow unit :=
  _ <- config_item "appearance" "accent_color" ;;
  match chosen with
  | Some color => apply_accent_color color
  | None => Py.st_ret tt
  end.

(** [ThemeEditor.save_theme]: the theme read from the buttons of the
    editor goes to [save_custom_theme] of the parent window. *)
Definition save_theme (editor : ThemeEditor) : Py.St MainWindow unit :=
  theme <- Py.st_lift (saved_colors (color_pickers editor) []) ;;
  save_custom_theme theme.

End ThemeHandlers.

(** ** Sequences of calls *)

(** The calls the engine receives from the window and from its timer. *)
Inductive EngineCall :=
| CallLoadFile (file_path : string)
| CallPlay
| CallStartCrossfade
| CallTimeout.

(** The engine after one call, whether the call returned or raised. *)
Definition run_call (vlc : Backend) (c : EngineCall) (self : AudioEngine)
  : AudioEngine :=
  match c with
  | CallLoadFile file_path => snd (load_file vlc file_path self)
  | CallPlay => snd (play vlc self)
  | CallStartCrossfade => snd (start_crossfade vlc self)
  | CallTimeout => tick self
  end.

Definition run_calls (vlc : Backend) (cs : list EngineCall) (self : AudioEngine)
  : AudioEngine :=
  fold_left (fun s c => run_call vlc c s) cs self.

(** Whether a call is one of those that go through [play], [load_file]
    or the timer, and not straight to [start_crossfade]. *)
Definition not_start_crossfade (c : EngineCall) : bool :=
  match c with
  | CallStartCrossfade => false
  | _ => true
  end.

(** Whether the backend can load a resource: both calls of [load_file]
    succeed. *)
Definition loadable (vlc : Backend) (file_path : string) : option Media :=
  match media_new vlc file_path with
  | Ok m0 =>
      match parse_with_options vlc m0 with
      | Ok m => Some m
      | Raised _ => None
      end
  | Raised _ => None
  end.

(** The volume and mute actions of the window. *)
Inductive VolumeCall :=
| CallToggleMute
| CallSetVolume (level : Z)
| CallVolumeUp
| CallVolumeDown.

Definition run_volume_call (c : VolumeCall) (self : MusicPlayer)
  : MusicPlayer :=
  match c with
  | CallToggleMute => toggle_mute self
  | CallSetVolume level => set_volume level self
  | CallVolumeUp => hotkey_volume_up self
  | CallVolumeDown => hotkey_volume_down self
  end.

Definition run_volume_calls (cs : list VolumeCall) (self : MusicPlayer)
  : MusicPlayer :=
  fold_left (fun s c => run_volume_call c s) cs self.

(** A handle bound to nothing next to an outgoing handle, with a
    crossfade of 3 seconds: [strict_backend] refuses to play the former. *)
Definition engine_unbound_fade : AudioEngine :=
  {| player := media_player_new;
     engine_equalizer := [];
     current_media := None;
     crossfade_timer := QTimer_new;
     crossfade_duration := 3;
     fade_out_player :=
       Some {| media := Some track_a; volume := 60; playing := true;
               equalizer := [] |} |}.

(** The media bound to the live handle is the current media. *)
Definition media_consistent (self : AudioEngine) : Prop :=
  media (player self) = current_media self.

(** The observed volume is in range and a recorded pre-mute volume is
    positive and in range. *)
Definition volume_state_ok (self : MusicPlayer) : Prop :=
  0 <= get_volume (audio_engine self) <= 100 /\
  match last_volume self with
  | Some v => 0 < v <= 100
  | None => True
  end.

(** A colour string that survives the trip through a button style sheet:
    ASCII text without colon or semicolon and without white space at
    either end. The names [QColor.name()] returns and the colours of
    [THEMES] are of this kind. *)
Definition clean (color : string) : bool :=
  Py.ascii_only color && Py.lacks ":" color && Py.lacks ";" color
  && String.eqb (Py.strip color) color.

(** The style sheet of a button that was given a colour, or none yet. *)
Definition style_of_choice (choice : option string) : string :=
  match choice with
  | Some color => button_style color
  | None => ""
  end.

(** The buttons of an editor whose roles carry the given choices. *)
Definition render (choices : Py.dict (option string)) : Py.dict string :=
  map (fun '(name, choice) => (name, style_of_choice choice)) choices.

(** The theme [save_theme] reads from such buttons. *)
Fixpoint chosen_theme (choices : Py.dict (option string)) (theme : Theme)
  : Theme :=
  match choices with
  | [] => theme
  | (name, Some color) :: rest => chosen_theme rest (Py.set name color theme)
  | (_, None) :: rest => chosen_theme rest theme
  end.

(** The colour [update_preview] paints for a choice: black for none. *)
Definition painted (choice : option string) : string :=
  match choice with
  | Some color => color
  | None => "#000000"
  end.

(** The colours [update_preview] paints for such buttons. *)
Fixpoint chosen_preview (choices : Py.dict (option string))
    (colors : Py.dict string) : Py.dict string :=
  match choices with
  | [] => colors
  | (name, choice) :: rest =>
      chosen_preview rest (Py.set name (painted choice) colors)
  end.

Definition clean_choice (entry : string * option string) : Prop :=
  match snd entry with
  | Some color => clean color = true
  | None => True
  end.

(** An editor as the handlers leave it: one button per role, in order,
    each without style sheet or styled with a clean colour. *)
Definition editor_ok (self : ThemeEditor) : Prop :=
  exists choices : Py.dict (option string),
    color_pickers self = render choices /\
    map fst choices = color_names /\
    Forall clean_choice choices.

(** What the user does in the editor. *)
Inductive EditorCall :=
| CallPickColor (chosen : option string) (color_name : string)
| CallShowTheme (text : string)
| CallThemeChanged (theme_name : string)
| CallResetTheme
| CallUpdatePreview.

Definition run_editor_call (c : EditorCall) (self : ThemeEditor)
  : ThemeEditor :=
  match c with
  | CallPickColor chosen color_name => snd (pick_color chosen color_name self)
  | CallShowTheme text => snd (show_theme text self)
  | CallThemeChanged theme_name => snd (theme_changed theme_name self)
  | CallResetTheme => snd (reset_theme self)
  | CallUpdatePreview => snd (update_preview self)
  end.

Definition run_editor_calls (cs : list EditorCall) (self : ThemeEditor)
  : ThemeEditor :=
  fold_left (fun s c => run_editor_call c s) cs self.

(** The colour dialog only returns clean colours. *)
Definition dialog_clean (c : EditorCall) : Prop :=
  match c with
  | CallPickColor (Some color) _ => clean color = true
  | _ => True
  end.

(** The names bound at module level: those the import statements list
    and those the file defines. *)
Definition MODULE_NAMES : list string :=
  [ "os"; "sys"; "logging"; "configparser"; "json"; "Path";
    "Optional"; "Dict"; "List"; "Tuple"; "Any"; "vlc"; "requests";
    "Qt"; "QUrl"; "QTimer"; "QSize"; "QPoint"; "QSettings";
    "QStandardPaths"; "QCoreApplication"; "QByteArray";
    "QIcon"; "QPixmap"; "QColor"; "QFont"; "QFontDatabase"; "QPalette";
    "QLinearGradient"; "QBrush"; "QPainter"; "QRadialGradient"; "QImage";
    "QKeySequence";
    "QApplication"; "QMainWindow"; "QWidget"; "QVBoxLayout"; "QHBoxLayout";
    "QLabel"; "QPushButton"; "QSlider"; "QListWidget"; "QTabWidget";
    "QFileDialog"; "QComboBox"; "QStackedWidget"; "QSystemTrayIcon";
    "QMenu"; "QMessageBox"; "QScrollArea"; "QSpacerItem"; "QSizePolicy";
    "QGroupBox"; "QCheckBox"; "QDoubleSpinBox"; "QSpinBox"; "QLineEdit";
    "QProgressBar"; "QSplitter"; "QFrame"; "QColorDialog"; "QShortcut";
    "QStyleFactory";
    "logger"; "APP_NAME"; "VERSION"; "SUPPORTED_FORMATS"; "DEFAULT_CONFIG";
    "THEMES"; "AudioEngine"; "ThemeEditor"; "MusicPlayer"; "main" ].

(** The global names [setup_ui] uses, in the order it first uses them. *)
Definition setup_ui_names : list string :=
  [ "QVBoxLayout"; "QComboBox"; "THEMES"; "QGroupBox"; "QGridLayout";
    "QLabel"; "QPushButton"; "QHBoxLayout" ].

(** Looking up global names in a module namespace: the first one that is
    not bound raises [NameError]. *)
Fixpoint resolve (namespace names : list string) : result unit :=
  match names with
  | [] => Ok tt
  | name :: rest =>
      if existsb (String.eqb name) namespace then resolve namespace rest
      else Raised ("NameError: name '" ++ name ++ "' is not defined")
  end.

(** An editor holding one button without style sheet per role, the combo
    box on its first entry ["Custom"], the preview painted black: what
    [setup_ui] is written to build. *)
Definition new_editor : ThemeEditor :=
  {| theme_combo := "Custom";
     color_pickers := map (fun name => (name, "")) color_names;
     preview :=
       Some {| preview_base := "#000000"; preview_button := "#000000";
               preview_text := "#000000"; preview_highlight := "#000000";
               preview_panel := "#000000" |} |}.

(** The global names [update_preview] uses, in the order it first uses
    them: [QPixmap] and [QPainter] before its loop over the buttons,
    [QColor] at the first paint call after it. *)
Definition update_preview_names : list string :=
  [ "QPixmap"; "QPainter"; "QColor" ].

(** [ThemeEditor.update_preview] in a module with the given global names:
    each name is looked up where the source uses it, so an unbound
    [QPixmap] or [QPainter] ends the call before the buttons are read and
    an unbound [QColor] after the loop, before [colors['base']] is
    evaluated. *)
Definition update_preview_in (namespace : list string)
  : Py.St ThemeEditor unit :=
  (Py.st_lift (resolve namespace [ "QPixmap"; "QPainter" ]) ;;
   pickers <- Py.st_gets color_pickers ;;
   colors <- Py.st_lift (preview_colors pickers []) ;;
   Py.st_lift (resolve namespace [ "QColor" ]) ;;
   base <- Py.st_lift (Py.item "base" colors) ;;
   button <- Py.st_lift (Py.item "button" colors) ;;
   text <- Py.st_lift (Py.item "text" colors) ;;
   highlight <- Py.st_lift (Py.item "highlight" colors) ;;
   panel <- Py.st_lift (Py.item "panel" colors) ;;
   Py.st_modify (with_preview
     (Some {| preview_base := base; preview_button := button;
              preview_text := text; preview_highlight := highlight;
              preview_panel := panel |})))%py.

(** [ThemeEditor.__init__], that is [setup_ui], in a module with the given
    global names: the editor it returns, or the exception that ends the
    construction. The combo box gets its entries before [theme_changed]
    is connected, so it shows ["Custom"] and nothing runs; each role gets
    a fresh button; [update_preview], with the names it looks up, comes
    last. The names [super] and [list] are built in and always bound. *)
Definition ThemeEditor_init (namespace : list string) : result ThemeEditor :=
  match resolve namespace setup_ui_names with
  | Raised e => Raised e
  | Ok _ =>
      match update_preview_in namespace
              {| theme_combo := "Custom";
                 color_pickers := map (fun name => (name, "")) color_names;
                 preview := None |} with
      | (Ok _, self) => Ok self
      | (Raised e, _) => Raised e
      end
  end.

(** The theme [THEMES.get(theme_name, THEMES['dark'])] selects. *)
Definition theme_or_dark (theme_name : string) : Theme :=
  match Py.get theme_name THEMES with
  | Some theme => theme
  | None =>
      match Py.get "dark" THEMES with
      | Some dark => dark
      | None => []
      end
  end.

(** The entry a choice contributes to the saved theme. *)
Definition saved_entry (entry : option (option string)) (otherwise : option string)
  : option string :=
  match entry with
  | Some (Some color) => Some color
  | _ => otherwise
  end.

(** No key occurs twice. *)
Fixpoint distinct_keys {V} (d : Py.dict V) : Prop :=
  match d with
  | [] => True
  | (k, _) :: rest => Py.get k rest = None /\ distinct_keys rest
  end.

(** The palette [apply_theme] builds from the colours of a theme and the
    accent colour of the configuration. *)
Definition theme_palette (base text highlight button panel accent : string)
  : Palette :=
  {| Window := base; WindowText := text; Base := panel;
     AlternateBase := button; ToolTipBase := text; ToolTipText := base;
     Text := text; Button := button; ButtonText := text;
     BrightText := highlight; Highlight := accent;
     HighlightedText := text |}.

(** The theme [apply_theme] works with. *)
Definition selected_theme (theme_name : string) (self : MainWindow) : Theme :=
  if String.eqb theme_name "custom" then custom_theme self
  else theme_or_dark theme_name.

(** A theme with a colour for each of the five roles. *)
Definition complete (theme : Theme) : Prop :=
  forall role, In role color_names -> Py.get role theme <> None.

(** A stand-in for the [json] module that knows the empty object only. *)
Definition empty_json : Json :=
  {| dumps := fun theme => match theme with [] => "{}" | _ => "?" end;
     loads := fun text =>
       if String.eqb text "{}" then Ok [] else Raised "JSONDecodeError" |}.

(** A window right after the configuration was loaded with its defaults:
    no palette and no style sheet yet, no custom theme. *)
Definition default_window : MainWindow :=
  {| config := DEFAULT_CONFIG; custom_theme := []; app_palette := None;
     style_sheet := "" |}.

(** A stand-in for the [json] module that writes a theme as
    [role=colour;role=colour] and reads that form back. *)
Fixpoint keyvalue_parse (parts : list string) : result Theme :=
  match parts with
  | [] => Ok []
  | part :: rest =>
      match Py.split "=" part with
      | [role; color] =>
          match keyvalue_parse rest with
          | Ok theme => Ok ((role, color) :: theme)
          | Raised e => Raised e
          end
      | _ => Raised "JSONDecodeError"
      end
  end.

Definition keyvalue_json : Json :=
  {| dumps := fun theme =>
       String.concat ";" (map (fun '(role, color) => role ++ "=" ++ color) theme);
     loads := fun text =>
       if String.eqb text "" then Ok [] else keyvalue_parse (Py.split ";" text) |}.





(** [save_config] as it is for a configuration that can always be written
    out. *)
Definition save_config_returns : MainWindow -> result unit :=
  fun _ => Ok tt.

(** [save_config] as it is in a class that does not define the method. *)
Definition save_config_undefined : MainWindow -> result unit :=
  fun _ => Raised "AttributeError: 'MusicPlayer' object has no attribute 'save_config'".

(** The window [apply_theme] leaves once the five colours of the theme
    and the accent colour were found: palette and style sheet installed
    and, for a name other than ["custom"], the name recorded under
    [appearance/theme]. *)
Definition themed_window (theme_name : string) (self : MainWindow)
    (options : Py.dict string)
    (base text highlight button panel accent : string) : MainWindow :=
  {| config :=
       if String.eqb theme_name "custom" then config self
       else Py.set "appearance" (Py.set "theme" theme_name options)
              (config self);
     custom_theme := custom_theme self;
     app_palette :=
       Some (theme_palette base text highlight button panel accent);
     style_sheet := theme_style_sheet base button text panel accent |}.

(** The lookups of [apply_theme] all succeed: the theme has its five
    colours and the configuration an accent colour. *)
Definition lookups_succeed (theme_name : string) (self : MainWindow) : Prop :=
  complete (selected_theme theme_name self) /\
  exists accent, fst (config_item "appearance" "accent_color" self) = Ok accent.

(** ** Properties *)

(** *** The timer handler *)

Lemma handle_crossfade_id (self : AudioEngine) :
  handle_crossfade self = (Ok tt, self).
Proof. reflexivity. Qed.

Lemma tick_id (self : AudioEngine) : tick self = self.
Proof. unfold tick. destruct (isActive (crossfade_timer self)); reflexivity. Qed.

Lemma ticks_id (n : nat) (self : AudioEngine) : ticks n self = self.
Proof.
  revert self. induction n as [|n IH]; intros self; simpl.
  - reflexivity.
  - rewrite tick_id. apply IH.
Qed.

(** *** Starting a crossfade *)

Lemma start_crossfade_some vlc self out :
  fade_out_player self = Some out ->
  start_crossfade vlc self = (Ok tt, started vlc out self).
Proof.
  intros Hout. unfold start_crossfade, bind, modify, gets; simpl.
  rewrite Hout. reflexivity.
Qed.

Lemma start_crossfade_none vlc self :
  fade_out_player self = None ->
  start_crossfade vlc self =
    (Raised "AttributeError",
     with_crossfade_timer (timer_start 100 (crossfade_timer self)) self).
Proof.
  intros Hout. unfold start_crossfade, bind, modify, gets; simpl.
  rewrite Hout. reflexivity.
Qed.

Lemma mp_play_volume vlc p : volume (snd (mp_play vlc p)) = volume p.
Proof.
  unfold mp_play; simpl. destruct (play_status vlc p =? 0); reflexivity.
Qed.

Lemma mp_play_playing vlc p :
  play_status vlc p = 0 -> playing (snd (mp_play vlc p)) = true.
Proof.
  intros H. unfold mp_play; simpl. rewrite H. reflexivity.
Qed.

Lemma play_crossfade vlc self out :
  0 < crossfade_duration self ->
  fade_out_player self = Some out ->
  play vlc self = (Ok true, started vlc out self).
Proof.
  intros Hd Hout. unfold play, bind, gets; simpl.
  rewrite Hout.
  assert (Hlt : (0 <? crossfade_duration self) = true) by (apply Z.ltb_lt; exact Hd).
  rewrite Hlt. rewrite bool_decide_eq_true_2 by (eexists; reflexivity).
  simpl. fold (bind (start_crossfade vlc) (fun _ => ret true)).
  unfold bind. rewrite (start_crossfade_some vlc self out Hout). reflexivity.
Qed.

Lemma play_direct vlc self :
  crossfade_duration self <= 0 \/ fade_out_player self = None ->
  play vlc self =
    (Ok (fst (mp_play vlc (player self)) =? 0),
     with_player (snd (mp_play vlc (player self))) self).
Proof.
  intros H. unfold play, bind, gets; simpl.
  assert (Hc : (0 <? crossfade_duration self)
               && bool_decide (is_Some (fade_out_player self)) = false).
  { destruct H as [H|H].
    - assert ((0 <? crossfade_duration self) = false) as -> by (apply Z.ltb_ge; exact H).
      reflexivity.
    - rewrite H. rewrite (bool_decide_eq_false_2 (is_Some None)).
      + apply andb_false_r.
      + intros [x Hx]. discriminate Hx. }
  rewrite Hc. destruct (mp_play vlc (player self)) as [status p'] eqn:E.
  reflexivity.
Qed.

(** C10. Every invocation of the crossfade tick handler leaves the whole
    engine unchanged: it returns normally with the engine it was given.
    Hence, once [start_crossfade] has run on an engine with an outgoing
    handle, any number of timer expiries leaves the engine exactly as
    [start_crossfade] left it: the incoming volume stays 0, the outgoing
    volume stays 100, the outgoing handle is still held and the timer is
    still running. *)
Theorem handle_crossfade_changes_nothing
    (vlc : Backend) (self : AudioEngine) (out : MediaPlayer) (n : nat) :
  fade_out_player self = Some out ->
  let s0 := snd (start_crossfade vlc self) in
  (forall e : AudioEngine, handle_crossfade e = (Ok tt, e)) /\
  (forall e : AudioEngine, tick e = e) /\
  ticks n s0 = s0 /\
  volume (player (ticks n s0)) = 0 /\
  fade_out_player (ticks n s0) = Some (audio_set_volume 100 out) /\
  option_map volume (fade_out_player (ticks n s0)) = Some 100 /\
  isActive (crossfade_timer (ticks n s0)) = true.
Proof.
  intros Hout s0. subst s0.
  rewrite (start_crossfade_some vlc self out Hout); simpl snd.
  rewrite ticks_id.
  split; [exact handle_crossfade_id|].
  split; [exact tick_id|].
  split; [reflexivity|].
  split; [|repeat split].
  unfold started; cbn [player]. rewrite mp_play_volume. reflexivity.
Qed.

Lemma handle_crossfade_changes_nothing_witness :
  fade_out_player engine_before_fade =
    Some {| media := Some track_a; volume := 60; playing := true;
            equalizer := [] |} /\
  volume (player (ticks 7
    (snd (start_crossfade permissive_backend engine_before_fade)))) = 0.
Proof.
  split; [reflexivity|].
  apply (handle_crossfade_changes_nothing permissive_backend
           engine_before_fade
           {| media := Some track_a; volume := 60; playing := true;
              equalizer := [] |} 7 eq_refl).
Defined.

(** C1, evaluated on the code. A crossfade of 3 seconds is started by
    [play] at master volume 60; the 100 ms timer then expires 30 times (3
    seconds). The incoming handle is still at volume 0 and not at 60, the
    outgoing handle is at 100 and not at 0, it is still held, and the
    timer is still running. *)
Example crossfade_never_completes :
  let s := ticks 30 (snd (play permissive_backend engine_before_fade)) in
  fst (play permissive_backend engine_before_fade) = Ok true /\
  get_volume engine_before_fade = 60 /\
  volume (player s) = 0 /\
  option_map volume (fade_out_player s) = Some 100 /\
  isActive (crossfade_timer s) = true.
Proof. vm_compute. repeat split. Qed.

(** The same for every number of expiries and every engine in which
    [play] starts a crossfade. *)
Lemma crossfade_stuck vlc self out (n : nat) :
  0 < crossfade_duration self ->
  fade_out_player self = Some out ->
  ticks n (snd (play vlc self)) = started vlc out self.
Proof.
  intros Hd Hout. rewrite (play_crossfade vlc self out Hd Hout); simpl.
  apply ticks_id.
Qed.

(** C2, as stated, fails: the volume of the outgoing handle after
    [start_crossfade] is not the master volume at that moment. *)
Lemma start_crossfade_ignores_master_volume :
  ~ (forall (vlc : Backend) (self : AudioEngine) (out : MediaPlayer),
       fade_out_player self = Some out ->
       option_map volume (fade_out_player (snd (start_crossfade vlc self)))
       = Some (get_volume self)).
Proof.
  intros H.
  specialize (H permissive_backend engine_before_fade _ eq_refl).
  vm_compute in H. discriminate H.
Qed.

(** C2, amended. Whenever a crossfade begins on an engine with an outgoing
    handle, [start_crossfade] returns normally; the timer runs with an
    interval of 100 ms; the outgoing handle is set to the constant volume
    100; the incoming handle is set to volume 0 and [play] is issued on it
    at once, so that it is playing when the backend reports status 0;
    nothing else in the engine changes. *)
Theorem start_crossfade_effect
    (vlc : Backend) (self : AudioEngine) (out : MediaPlayer) :
  fade_out_player self = Some out ->
  let incoming := audio_set_volume 0 (player self) in
  let s' := snd (start_crossfade vlc self) in
  fst (start_crossfade vlc self) = Ok tt /\
  crossfade_timer s' = {| isActive := true; interval := 100 |} /\
  fade_out_player s' = Some (audio_set_volume 100 out) /\
  option_map volume (fade_out_player s') = Some 100 /\
  player s' = snd (mp_play vlc incoming) /\
  volume (player s') = 0 /\
  (play_status vlc incoming = 0 -> playing (player s') = true) /\
  media (player s') = media (player self) /\
  current_media s' = current_media self /\
  crossfade_duration s' = crossfade_duration self /\
  engine_equalizer s' = engine_equalizer self.
Proof.
  intros Hout incoming s'. subst s'.
  rewrite (start_crossfade_some vlc self out Hout); simpl.
  repeat split.
  - apply mp_play_volume.
  - intros Hst. apply mp_play_playing. exact Hst.
  - unfold mp_play; simpl.
    destruct (play_status vlc (audio_set_volume 0 (player self)) =? 0);
      reflexivity.
Qed.

Lemma start_crossfade_effect_witness :
  fade_out_player engine_before_fade =
    Some {| media := Some track_a; volume := 60; playing := true;
            equalizer := [] |} /\
  option_map volume
    (fade_out_player
       (snd (start_crossfade permissive_backend engine_before_fade)))
  = Some 100.
Proof.
  split; [reflexivity|].
  apply (start_crossfade_effect permissive_backend engine_before_fade
           {| media := Some track_a; volume := 60; playing := true;
              equalizer := [] |} eq_refl).
Defined.

(** *** Cancelling a crossfade *)

(** C3. For every active session, whatever its outgoing and incoming
    handles, and every elapsed time strictly between 0 and the duration,
    a [stop], a [seek] or a new track advance settles the session first:
    the outgoing handle is released, the incoming handle has the base
    volume and is the only live handle, no outgoing handle remains and
    the tick is cancelled. *)
Theorem cancel_settles
    (outgoing incoming : MediaPlayer) (elapsed duration base_volume : Z)
    (rel : list MediaPlayer) (cmd : CrossfadeController.Command) :
  CrossfadeController.mid_fade elapsed duration ->
  let c := {| CrossfadeController.session :=
                CrossfadeController.Fading outgoing incoming
                  elapsed duration base_volume;
              CrossfadeController.tick_running := true;
              CrossfadeController.released := rel |} in
  let c' := CrossfadeController.settle cmd c in
  CrossfadeController.released c' = outgoing :: rel /\
  CrossfadeController.session c' =
    CrossfadeController.Settled (audio_set_volume base_volume incoming) /\
  CrossfadeController.live_handles c' =
    [audio_set_volume base_volume incoming] /\
  Forall (fun h => volume h = base_volume)
    (CrossfadeController.live_handles c') /\
  length (CrossfadeController.live_handles c') = 1%nat /\
  CrossfadeController.outgoing_handles c' = [] /\
  CrossfadeController.tick_running c' = false.
Proof.
  intros _ c c'. subst c c'.
  destruct cmd; cbn; repeat split; repeat constructor.
Qed.

Lemma cancel_settles_witness :
  CrossfadeController.mid_fade 1200 3000 /\
  CrossfadeController.live_handles
    (CrossfadeController.settle CrossfadeController.Stop
       {| CrossfadeController.session :=
            CrossfadeController.Fading
              {| media := Some track_a; volume := 36; playing := true;
                 equalizer := [] |}
              {| media := Some track_b; volume := 24; playing := true;
                 equalizer := [] |}
              1200 3000 60;
          CrossfadeController.tick_running := true;
          CrossfadeController.released := [] |})
  = [ {| media := Some track_b; volume := 60; playing := true;
         equalizer := [] |} ].
Proof.
  assert (H : CrossfadeController.mid_fade 1200 3000)
    by (unfold CrossfadeController.mid_fade; lia).
  split; [exact H|].
  apply (cancel_settles
           {| media := Some track_a; volume := 36; playing := true;
              equalizer := [] |}
           {| media := Some track_b; volume := 24; playing := true;
              equalizer := [] |}
           1200 3000 60 [] CrossfadeController.Stop H).
Defined.

(** *** Volume and mute *)

Lemma clamp_range v : 0 <= clamp v 0 100 <= 100.
Proof. unfold clamp. lia. Qed.

Lemma clamp_in_range v : 0 <= v <= 100 -> clamp v 0 100 = v.
Proof. unfold clamp. lia. Qed.

Lemma clamp_below v : v < 0 -> clamp v 0 100 = 0.
Proof. unfold clamp. lia. Qed.

Lemma clamp_above v : 100 < v -> clamp v 0 100 = 100.
Proof. unfold clamp. lia. Qed.

Lemma get_set_volume v self :
  get_volume (audio_engine (set_volume v self)) = clamp v 0 100.
Proof. reflexivity. Qed.

(** C8. For every integer level, inside or outside [0,100], [set_volume]
    returns (it is a total function: nothing is raised) and the volume
    observed afterwards is the level clamped to [0,100]: the level itself
    when it is in range, 0 below and 100 above. *)
Theorem set_volume_clamps (v : Z) (self : MusicPlayer) :
  let observed := get_volume (audio_engine (set_volume v self)) in
  observed = clamp v 0 100 /\
  observed = Z.max 0 (Z.min 100 v) /\
  0 <= observed <= 100 /\
  (if v <? 0 then observed = 0
   else if 100 <? v then observed = 100
   else observed = v).
Proof.
  cbn zeta. rewrite get_set_volume.
  split; [reflexivity|]. split; [reflexivity|].
  split; [apply clamp_range|].
  destruct (v <? 0) eqn:E1; [apply clamp_below; lia|].
  destruct (100 <? v) eqn:E2; [apply clamp_above; lia|].
  apply clamp_in_range; lia.
Qed.

(** The two volume shortcuts keep the observed volume in range and move
    it by at most 5. *)
Lemma hotkey_volume_up_observed self :
  get_volume (audio_engine (hotkey_volume_up self))
  = clamp (get_volume (audio_engine self) + 5) 0 100.
Proof. unfold hotkey_volume_up. rewrite get_set_volume. unfold clamp. lia. Qed.

Lemma hotkey_volume_down_observed self :
  get_volume (audio_engine (hotkey_volume_down self))
  = clamp (get_volume (audio_engine self) - 5) 0 100.
Proof. unfold hotkey_volume_down. rewrite get_set_volume. unfold clamp. lia. Qed.

Lemma toggle_mute_positive self :
  0 < get_volume (audio_engine self) ->
  toggle_mute self
  = set_volume 0 {| audio_engine := audio_engine self;
                    last_volume := Some (get_volume (audio_engine self)) |}.
Proof.
  intros H. unfold toggle_mute.
  assert ((0 <? get_volume (audio_engine self)) = true) as ->
    by (apply Z.ltb_lt; exact H).
  reflexivity.
Qed.

Lemma toggle_mute_silent self :
  get_volume (audio_engine self) <= 0 ->
  toggle_mute self
  = set_volume (match last_volume self with Some v => v | None => 70 end) self.
Proof.
  intros H. unfold toggle_mute.
  assert ((0 <? get_volume (audio_engine self)) = false) as ->
    by (apply Z.ltb_ge; exact H).
  reflexivity.
Qed.

(** Muting then un-muting restores any observed volume in (0,100]. *)
Lemma mute_unmute_observed self :
  0 < get_volume (audio_engine self) <= 100 ->
  get_volume (audio_engine (toggle_mute self)) = 0 /\
  last_volume (toggle_mute self) = Some (get_volume (audio_engine self)) /\
  get_volume (audio_engine (toggle_mute (toggle_mute self)))
  = get_volume (audio_engine self).
Proof.
  intros [Hpos Hle].
  rewrite (toggle_mute_positive self Hpos).
  split; [reflexivity|]. split; [reflexivity|].
  rewrite toggle_mute_silent by (rewrite get_set_volume; unfold clamp; lia).
  rewrite get_set_volume. cbn [last_volume set_volume].
  apply clamp_in_range. lia.
Qed.

(** C4. For every positive volume v, after [set_volume v] a first
    [toggle_mute] yields the observed volume 0 and a second one restores
    the observed volume to the one before muting; that volume is exactly
    v for every v of the volume range (v <= 100; a larger level was
    clamped by [set_volume] already). *)
Theorem mute_unmute_roundtrip (v : Z) (self : MusicPlayer) :
  0 < v ->
  let s1 := set_volume v self in
  let pre_mute := get_volume (audio_engine s1) in
  get_volume (audio_engine (toggle_mute s1)) = 0 /\
  get_volume (audio_engine (toggle_mute (toggle_mute s1))) = pre_mute /\
  (v <= 100 ->
   pre_mute = v /\
   get_volume (audio_engine (toggle_mute (toggle_mute s1))) = v).
Proof.
  intros Hv s1 pre_mute.
  assert (Hpre : 0 < pre_mute <= 100).
  { subst pre_mute s1. rewrite get_set_volume. unfold clamp. lia. }
  destruct (mute_unmute_observed s1 Hpre) as (H0 & _ & H2).
  split; [exact H0|]. split; [exact H2|].
  intros Hle.
  assert (Heq : pre_mute = v).
  { subst pre_mute s1. rewrite get_set_volume. apply clamp_in_range. lia. }
  split; [exact Heq|]. rewrite H2. exact Heq.
Qed.

Lemma mute_unmute_roundtrip_witness :
  0 < 60 /\
  get_volume (audio_engine
    (toggle_mute
       (set_volume 60
          {| audio_engine := engine_playing_a; last_volume := None |})))
    = 0 /\
  get_volume (audio_engine
    (toggle_mute (toggle_mute
       (set_volume 60
          {| audio_engine := engine_playing_a; last_volume := None |}))))
    = 60.
Proof.
  assert (H : 0 < 60) by lia.
  split; [exact H|].
  destruct (mute_unmute_roundtrip 60
              {| audio_engine := engine_playing_a; last_volume := None |} H)
    as (Hmuted & _ & Hback).
  split; [exact Hmuted|]. apply Hback. lia.
Defined.

(** C5. When [toggle_mute] runs while the observed volume is 0 and no
    pre-mute volume was ever recorded ([last_volume] was never assigned),
    the observed volume becomes the fixed fallback 70, and [last_volume]
    stays unassigned. *)
Theorem toggle_mute_fallback (self : MusicPlayer) :
  get_volume (audio_engine self) = 0 ->
  last_volume self = None ->
  get_volume (audio_engine (toggle_mute self)) = 70 /\
  last_volume (toggle_mute self) = None.
Proof.
  intros H0 Hnone.
  rewrite toggle_mute_silent by lia.
  rewrite Hnone. split; [reflexivity | exact Hnone].
Qed.

Lemma toggle_mute_fallback_witness :
  get_volume (audio_engine
    (toggle_mute
       (set_volume 0
          (MusicPlayer_init (AudioEngine_init sample_presets 10) 70)))) = 70.
Proof.
  apply (toggle_mute_fallback
           (set_volume 0
              (MusicPlayer_init (AudioEngine_init sample_presets 10) 70))
           eq_refl eq_refl).
Defined.

(** *** Loading *)

Lemma load_file_ok vlc path self m0 m :
  media_new vlc path = Ok m0 ->
  parse_with_options vlc m0 = Ok m ->
  load_file vlc path self
  = (Ok true,
     with_current_media (Some m) (with_player (set_media m (player self)) self)).
Proof.
  intros Hnew Hparse.
  unfold load_file, try_except, bind, call, modify, ret; simpl.
  rewrite Hnew, Hparse. reflexivity.
Qed.

Lemma load_file_raised_new vlc path self e :
  media_new vlc path = Raised e ->
  load_file vlc path self
  = (if is_Exception e then Ok false else Raised e, self).
Proof.
  intros Hnew.
  unfold load_file, try_except, bind, call, modify, ret; simpl.
  rewrite Hnew. destruct (is_Exception e); reflexivity.
Qed.

Lemma load_file_raised_parse vlc path self m0 e :
  media_new vlc path = Ok m0 ->
  parse_with_options vlc m0 = Raised e ->
  load_file vlc path self
  = (if is_Exception e then Ok false else Raised e, self).
Proof.
  intros Hnew Hparse.
  unfold load_file, try_except, bind, call, modify, ret; simpl.
  rewrite Hnew, Hparse. destruct (is_Exception e); reflexivity.
Qed.

(** [load_file] never touches the timer, the duration or the outgoing
    handle. *)
Lemma load_file_frame vlc path self :
  crossfade_timer (snd (load_file vlc path self)) = crossfade_timer self /\
  crossfade_duration (snd (load_file vlc path self)) = crossfade_duration self /\
  fade_out_player (snd (load_file vlc path self)) = fade_out_player self.
Proof.
  destruct (media_new vlc path) as [m0|e] eqn:Hnew.
  - destruct (parse_with_options vlc m0) as [m|e] eqn:Hparse.
    + rewrite (load_file_ok vlc path self m0 m Hnew Hparse); simpl.
      repeat split.
    + rewrite (load_file_raised_parse vlc path self m0 e Hnew Hparse); simpl.
      repeat split.
  - rewrite (load_file_raised_new vlc path self e Hnew); simpl.
    repeat split.
Qed.




(** *** Instant cut *)

(** C6. With a crossfade duration of 0, loading the next track and
    calling [play] is an instant cut: [play] takes the direct branch (one
    backend [play] on the live handle, nothing else), neither the load nor
    the play starts the crossfade timer or touches the outgoing handle, so
    no session is created; the live handle carries the loaded media; and
    an engine that held a single handle before holds a single handle
    after the load and after the play. *)
Theorem zero_duration_is_instant_cut
    (vlc : Backend) (path : string) (self : AudioEngine) :
  crossfade_duration self = 0 ->
  let s1 := snd (load_file vlc path self) in
  let s2 := snd (play vlc s1) in
  play vlc s1
  = (Ok (fst (mp_play vlc (player s1)) =? 0),
     with_player (snd (mp_play vlc (player s1))) s1) /\
  crossfade_timer s1 = crossfade_timer self /\
  crossfade_timer s2 = crossfade_timer self /\
  fade_out_player s1 = fade_out_player self /\
  fade_out_player s2 = fade_out_player self /\
  (forall m0 m,
     media_new vlc path = Ok m0 -> parse_with_options vlc m0 = Ok m ->
     fst (load_file vlc path self) = Ok true /\
     media (player s2) = Some m /\ current_media s2 = Some m) /\
  (fade_out_player self = None ->
   handles s1 = [player s1] /\ handles s2 = [player s2]).
Proof.
  intros Hd s1 s2.
  destruct (load_file_frame vlc path self) as (Ht & Hdur & Hout).
  fold s1 in Ht, Hdur, Hout.
  assert (Hplay : play vlc s1
                  = (Ok (fst (mp_play vlc (player s1)) =? 0),
                     with_player (snd (mp_play vlc (player s1))) s1)).
  { apply play_direct. left. rewrite Hdur, Hd. lia. }
  assert (Hs2 : s2 = with_player (snd (mp_play vlc (player s1))) s1).
  { subst s2. rewrite Hplay. reflexivity. }
  split; [exact Hplay|].
  split; [exact Ht|].
  split; [rewrite Hs2; exact Ht|].
  split; [exact Hout|].
  split; [rewrite Hs2; exact Hout|].
  split.
  - intros m0 m Hnew Hparse.
    rewrite Hs2. subst s1.
    rewrite (load_file_ok vlc path self m0 m Hnew Hparse); simpl.
    split; [reflexivity|]. split; [|reflexivity].
    destruct (play_status vlc (set_media m (player self)) =? 0); reflexivity.
  - intros Hnone. unfold handles.
    rewrite Hs2; cbn [fade_out_player with_player player].
    rewrite Hout, Hnone. split; reflexivity.
Qed.

Lemma zero_duration_is_instant_cut_witness :
  crossfade_duration engine_playing_a = 0 /\
  handles (snd (play strict_backend
                  (snd (load_file strict_backend "b.mp3" engine_playing_a))))
  = [ {| media := Some track_b; volume := 60; playing := true;
         equalizer := [] |} ].
Proof.
  split; [reflexivity|].
  destruct (zero_duration_is_instant_cut strict_backend "b.mp3"
              engine_playing_a eq_refl) as (_ & _ & _ & _ & _ & _ & H).
  destruct (H eq_refl) as [_ H2].
  rewrite H2. reflexivity.
Defined.

(** *** Equalizer presets *)

Lemma lower_char_idem (c : ascii) : lower_char (lower_char c) = lower_char c.
Proof.
  destruct c as [b0 b1 b2 b3 b4 b5 b6 b7].
  destruct b0, b1, b2, b3, b4, b5, b6, b7; reflexivity.
Qed.

Lemma lower_idem (s : string) : lower (lower s) = lower s.
Proof.
  induction s as [|c rest IH]; simpl.
  - reflexivity.
  - rewrite lower_char_idem, IH. reflexivity.
Qed.

Lemma resolve_preset_lower presets bands name :
  resolve_preset presets bands (lower name) = resolve_preset presets bands name.
Proof. unfold resolve_preset. rewrite lower_idem. reflexivity. Qed.

Lemma resolve_preset_miss presets bands name :
  presets !! lower name = None ->
  resolve_preset presets bands name = flat_gains bands.
Proof. intros H. unfold resolve_preset. rewrite H. reflexivity. Qed.

Lemma resolve_preset_flat presets bands :
  presets !! "flat" = Some (flat_gains bands) ->
  resolve_preset presets bands "flat" = flat_gains bands.
Proof.
  intros H. unfold resolve_preset.
  change (lower "flat") with "flat". rewrite H. reflexivity.
Qed.

Lemma set_eq_preset_resolve presets bands n1 n2 self :
  resolve_preset presets bands n1 = resolve_preset presets bands n2 ->
  set_eq_preset presets bands n1 self = set_eq_preset presets bands n2 self.
Proof. intros H. unfold set_eq_preset. rewrite H. reflexivity. Qed.

(** C9. In a store whose ["flat"] entry is the all-zero preset, a preset
    name is resolved case-insensitively (two names with the same lower
    case, and a name and its lower case, are applied alike), and every
    name the store does not know resolves to the all-zero gains, so that
    applying it leaves the engine in exactly the state that applying
    ["flat"] does. *)
Theorem unknown_preset_is_flat
    (presets : gmap string (list Q)) (bands : nat)
    (name : string) (self : AudioEngine) :
  presets !! "flat" = Some (flat_gains bands) ->
  presets !! lower name = None ->
  set_eq_preset presets bands name self
  = set_eq_preset presets bands "flat" self /\
  resolve_preset presets bands name = replicate bands 0%Q /\
  (forall other : string,
     lower other = lower name ->
     set_eq_preset presets bands other self
     = set_eq_preset presets bands "flat" self) /\
  (forall n1 n2 : string,
     lower n1 = lower n2 ->
     set_eq_preset presets bands n1 self
     = set_eq_preset presets bands n2 self) /\
  (forall n : string,
     set_eq_preset presets bands (lower n) self
     = set_eq_preset presets bands n self).
Proof.
  intros Hflat Hmiss.
  assert (Hsame : forall n1 n2 : string, lower n1 = lower n2 ->
            set_eq_preset presets bands n1 self
            = set_eq_preset presets bands n2 self).
  { intros n1 n2 Heq. apply set_eq_preset_resolve.
    unfold resolve_preset. rewrite Heq. reflexivity. }
  assert (Hname : set_eq_preset presets bands name self
                  = set_eq_preset presets bands "flat" self).
  { apply set_eq_preset_resolve.
    rewrite (resolve_preset_miss presets bands name Hmiss).
    rewrite (resolve_preset_flat presets bands Hflat). reflexivity. }
  split; [exact Hname|].
  split; [apply resolve_preset_miss; exact Hmiss|].
  split.
  - intros other Heq. rewrite (Hsame other name Heq). exact Hname.
  - split; [exact Hsame|].
    intros n. apply Hsame. apply lower_idem.
Qed.

Lemma unknown_preset_is_flat_witness :
  sample_presets !! "flat" = Some (flat_gains 10) /\
  sample_presets !! lower "nonexistent" = None /\
  set_eq_preset sample_presets 10 "nonexistent" engine_before_fade
  = set_eq_preset sample_presets 10 "flat" engine_before_fade.
Proof.
  assert (Hflat : sample_presets !! "flat" = Some (flat_gains 10))
    by (vm_compute; reflexivity).
  assert (Hmiss : sample_presets !! lower "nonexistent" = None)
    by (vm_compute; reflexivity).
  split; [exact Hflat|]. split; [exact Hmiss|].
  exact (proj1 (unknown_preset_is_flat sample_presets 10 "nonexistent"
                  engine_before_fade Hflat Hmiss)).
Defined.

(** A known name in another case selects its curve, not the flat one. *)
Example rock_any_case :
  resolve_preset sample_presets 10 "RoCk"
  = [8; 5; -5; -8; -3; 4; 9; 11; 11; 11]%Q.
Proof. vm_compute. reflexivity. Qed.

(** ** Further properties of the engine *)

Lemma load_file_cases vlc path self :
  snd (load_file vlc path self) =
    match loadable vlc path with
    | Some m =>
        with_current_media (Some m)
          (with_player (set_media m (player self)) self)
    | None => self
    end.
Proof.
  unfold loadable.
  destruct (media_new vlc path) as [m0|e] eqn:Hnew.
  - destruct (parse_with_options vlc m0) as [m|e] eqn:Hparse.
    + rewrite (load_file_ok vlc path self m0 m Hnew Hparse). reflexivity.
    + rewrite (load_file_raised_parse vlc path self m0 e Hnew Hparse).
      reflexivity.
  - rewrite (load_file_raised_new vlc path self e Hnew). reflexivity.
Qed.

Lemma play_cases vlc self :
  play vlc self =
    match fade_out_player self with
    | Some out =>
        if 0 <? crossfade_duration self
        then (Ok true, started vlc out self)
        else (Ok (fst (mp_play vlc (player self)) =? 0),
              with_player (snd (mp_play vlc (player self))) self)
    | None =>
        (Ok (fst (mp_play vlc (player self)) =? 0),
         with_player (snd (mp_play vlc (player self))) self)
    end.
Proof.
  destruct (fade_out_player self) as [out|] eqn:Hout.
  - destruct (0 <? crossfade_duration self) eqn:Hd.
    + apply play_crossfade; [apply Z.ltb_lt; exact Hd | exact Hout].
    + apply play_direct. left. apply Z.ltb_ge. exact Hd.
  - apply play_direct. right. exact Hout.
Qed.

(** X1. [play] never raises, whatever the engine and the backend:
    [start_crossfade], which raises without an outgoing handle, is only
    reached behind the test that there is one. *)
Theorem play_never_raises (vlc : Backend) (self : AudioEngine) :
  exists b : bool, fst (play vlc self) = Ok b.
Proof.
  rewrite play_cases.
  destruct (fade_out_player self) as [out|].
  - destruct (0 <? crossfade_duration self); eexists; reflexivity.
  - eexists; reflexivity.
Qed.

(** X2. Called on an engine without outgoing handle, [start_crossfade]
    raises [AttributeError], but only after it started the timer: the
    timer is left running at 100 ms (so the handler will be called), and
    nothing else in the engine has changed. *)
Theorem start_crossfade_without_outgoing_handle
    (vlc : Backend) (self : AudioEngine) :
  fade_out_player self = None ->
  let s' := snd (start_crossfade vlc self) in
  fst (start_crossfade vlc self) = Raised "AttributeError" /\
  crossfade_timer s' = {| isActive := true; interval := 100 |} /\
  player s' = player self /\
  fade_out_player s' = None /\
  current_media s' = current_media self /\
  crossfade_duration s' = crossfade_duration self /\
  engine_equalizer s' = engine_equalizer self.
Proof.
  intros Hout s'. subst s'.
  rewrite (start_crossfade_none vlc self Hout); simpl.
  repeat split. exact Hout.
Qed.

Lemma start_crossfade_without_outgoing_handle_witness :
  fade_out_player engine_playing_a = None /\
  isActive (crossfade_timer
    (snd (start_crossfade permissive_backend engine_playing_a))) = true.
Proof.
  split; [reflexivity|].
  destruct (start_crossfade_without_outgoing_handle permissive_backend
              engine_playing_a eq_refl) as (_ & Ht & _).
  rewrite Ht. reflexivity.
Defined.

(** X3. When [play] starts a crossfade it returns [True] without looking
    at the backend: if the backend refuses to start the incoming handle
    (status other than 0), [play] still reports success and the incoming
    handle is left as it was, at volume 0. Outside a crossfade the result
    is [True] exactly when the status is 0. *)
Theorem play_in_crossfade_ignores_play_status
    (vlc : Backend) (self : AudioEngine) (out : MediaPlayer) :
  0 < crossfade_duration self ->
  fade_out_player self = Some out ->
  play_status vlc (audio_set_volume 0 (player self)) <> 0 ->
  let s' := snd (play vlc self) in
  fst (play vlc self) = Ok true /\
  player s' = audio_set_volume 0 (player self) /\
  playing (player s') = playing (player self) /\
  fst (play vlc (with_fade_out_player None self))
  = Ok (play_status vlc (player self) =? 0).
Proof.
  intros Hd Hout Hst s'. subst s'.
  rewrite (play_crossfade vlc self out Hd Hout).
  unfold started; cbn [fst snd player].
  assert (Hp : snd (mp_play vlc (audio_set_volume 0 (player self)))
               = audio_set_volume 0 (player self)).
  { unfold mp_play; simpl.
    destruct (play_status vlc (audio_set_volume 0 (player self)) =? 0) eqn:E.
    - apply Z.eqb_eq in E. contradiction.
    - reflexivity. }
  rewrite Hp.
  split; [reflexivity|]. split; [reflexivity|]. split; [reflexivity|].
  rewrite play_direct by (right; reflexivity). reflexivity.
Qed.

Lemma play_in_crossfade_ignores_play_status_witness :
  0 < crossfade_duration engine_unbound_fade /\
  play_status strict_backend
    (audio_set_volume 0 (player engine_unbound_fade)) <> 0 /\
  fst (play strict_backend engine_unbound_fade) = Ok true /\
  playing (player (snd (play strict_backend engine_unbound_fade))) = false.
Proof.
  assert (Hd : 0 < crossfade_duration engine_unbound_fade) by (simpl; lia).
  assert (Hst : play_status strict_backend
                  (audio_set_volume 0 (player engine_unbound_fade)) <> 0)
    by (vm_compute; discriminate).
  destruct (play_in_crossfade_ignores_play_status strict_backend
              engine_unbound_fade _ Hd eq_refl Hst) as (Hr & _ & Hp & _).
  split; [exact Hd|]. split; [exact Hst|]. split; [exact Hr|].
  rewrite Hp. reflexivity.
Defined.

Lemma mp_play_media vlc p : media (snd (mp_play vlc p)) = media p.
Proof.
  unfold mp_play; simpl. destruct (play_status vlc p =? 0); reflexivity.
Qed.

Lemma run_call_media_player vlc c self :
  match c with
  | CallLoadFile _ => True
  | _ => media (player (run_call vlc c self)) = media (player self) /\
         current_media (run_call vlc c self) = current_media self
  end.
Proof.
  destruct c as [path| | |]; cbn [run_call]; [exact I| | |].
  - rewrite play_cases.
    destruct (fade_out_player self) as [out|];
      [destruct (0 <? crossfade_duration self)|];
      unfold started, with_player; cbn [snd player current_media];
      rewrite mp_play_media; split; reflexivity.
  - destruct (fade_out_player self) as [out|] eqn:Hout.
    + rewrite (start_crossfade_some vlc self out Hout).
      unfold started; cbn [snd player current_media].
      rewrite mp_play_media. split; reflexivity.
    + rewrite (start_crossfade_none vlc self Hout). split; reflexivity.
  - rewrite tick_id. split; reflexivity.
Qed.

Lemma run_call_media_consistent vlc c self :
  media_consistent self -> media_consistent (run_call vlc c self).
Proof.
  unfold media_consistent. intros H.
  pose proof (run_call_media_player vlc c self) as Hc.
  destruct c as [path| | |].
  1: { simpl. rewrite load_file_cases.
       destruct (loadable vlc path); simpl; [reflexivity | exact H]. }
  all: destruct Hc as [H1 H2]; rewrite H1, H2; exact H.
Qed.

(** X4. Along any sequence of [load_file], [play], [start_crossfade] and
    timer expiries, whether they succeed, fail or raise, [current_media]
    stays the media bound to the live handle, once it is (as it is right
    after [__init__], where both are unset). *)
Theorem current_media_follows_player
    (vlc : Backend) (cs : list EngineCall) (self : AudioEngine) :
  media (player self) = current_media self ->
  media (player (run_calls vlc cs self))
  = current_media (run_calls vlc cs self).
Proof.
  revert self. induction cs as [|c cs IH]; intros self H; simpl.
  - exact H.
  - apply IH. apply (run_call_media_consistent vlc c self H).
Qed.

Lemma current_media_follows_player_witness :
  media (player
    (run_calls strict_backend
       [CallLoadFile "a.mp3"; CallPlay; CallLoadFile "missing.xyz";
        CallStartCrossfade; CallTimeout; CallLoadFile "b.mp3"]
       (AudioEngine_init sample_presets 10)))
  = Some track_b.
Proof.
  rewrite (current_media_follows_player strict_backend _
             (AudioEngine_init sample_presets 10) eq_refl).
  reflexivity.
Defined.

Lemma run_call_frame vlc c self :
  crossfade_duration (run_call vlc c self) = crossfade_duration self /\
  (fade_out_player self = None ->
   fade_out_player (run_call vlc c self) = None /\
   (not_start_crossfade c = true ->
    crossfade_timer (run_call vlc c self) = crossfade_timer self)).
Proof.
  destruct c as [path| | |]; cbn [run_call not_start_crossfade].
  - rewrite load_file_cases.
    destruct (loadable vlc path); simpl; repeat split; auto.
  - rewrite play_cases.
    destruct (fade_out_player self) as [out|] eqn:Hout.
    + destruct (0 <? crossfade_duration self); simpl;
        (split; [reflexivity | intros Hn; discriminate Hn]).
    + simpl. repeat split; auto.
  - destruct (fade_out_player self) as [out|] eqn:Hout.
    + rewrite (start_crossfade_some vlc self out Hout); simpl.
      split; [reflexivity | intros Hn; discriminate Hn].
    + rewrite (start_crossfade_none vlc self Hout); simpl.
      split; [reflexivity|]. intros _. split; [exact Hout|].
      intros Hn; discriminate Hn.
  - rewrite tick_id. repeat split; auto.
Qed.

(** X5. No method of the engine creates an outgoing handle or changes the
    crossfade duration. From an engine without outgoing handle, any
    sequence of [load_file], [play], [start_crossfade] and timer expiries
    ends without outgoing handle and with the same duration; and when the
    sequence does not call [start_crossfade] directly, the timer is
    untouched too, so that [play] never starts a crossfade. *)
Theorem no_call_creates_outgoing_handle
    (vlc : Backend) (cs : list EngineCall) (self : AudioEngine) :
  fade_out_player self = None ->
  fade_out_player (run_calls vlc cs self) = None /\
  crossfade_duration (run_calls vlc cs self) = crossfade_duration self /\
  (forallb not_start_crossfade cs = true ->
   crossfade_timer (run_calls vlc cs self) = crossfade_timer self).
Proof.
  revert self. induction cs as [|c cs IH]; intros self Hout; simpl.
  - repeat split; auto.
  - destruct (run_call_frame vlc c self) as (Hd & Hf).
    destruct (Hf Hout) as (Hout' & Ht).
    destruct (IH (run_call vlc c self) Hout') as (H1 & H2 & H3).
    split; [exact H1|]. split; [rewrite H2; exact Hd|].
    intros Hall. apply andb_prop in Hall. destruct Hall as [Hc Hcs].
    rewrite (H3 Hcs). apply Ht. exact Hc.
Qed.

Lemma no_call_creates_outgoing_handle_witness :
  fade_out_player (AudioEngine_init sample_presets 10) = None /\
  isActive (crossfade_timer
    (run_calls strict_backend
       [CallLoadFile "a.mp3"; CallPlay; CallTimeout; CallLoadFile "b.mp3";
        CallPlay]
       (AudioEngine_init sample_presets 10))) = false.
Proof.
  split; [reflexivity|].
  destruct (no_call_creates_outgoing_handle strict_backend
              [CallLoadFile "a.mp3"; CallPlay; CallTimeout;
               CallLoadFile "b.mp3"; CallPlay]
              (AudioEngine_init sample_presets 10) eq_refl)
    as (_ & _ & Ht).
  rewrite (Ht eq_refl). reflexivity.
Defined.

Lemma run_loads_app vlc (l1 l2 : list string) self :
  run_calls vlc (map CallLoadFile (l1 ++ l2)) self
  = run_calls vlc (map CallLoadFile l2)
      (run_calls vlc (map CallLoadFile l1) self).
Proof.
  unfold run_calls. rewrite map_app, fold_left_app. reflexivity.
Qed.

Lemma run_loads_failing vlc (paths : list string) self :
  Forall (fun p => loadable vlc p = None) paths ->
  run_calls vlc (map CallLoadFile paths) self = self.
Proof.
  intros H. revert self. induction H as [|p ps Hp _ IH]; intros self; simpl.
  - reflexivity.
  - rewrite load_file_cases, Hp. simpl. apply IH.
Qed.

(** X6. The last resource that loads wins: after any loads, one load
    that succeeds with media [m], and then any number of loads that fail,
    the live handle is bound to [m] and [current_media] is [m]; the
    later failures leave the engine exactly as the successful load left
    it. *)
Theorem last_successful_load_wins
    (vlc : Backend) (before after : list string) (path : string) (m : Media)
    (self : AudioEngine) :
  loadable vlc path = Some m ->
  Forall (fun p => loadable vlc p = None) after ->
  let s' := run_calls vlc
              (map CallLoadFile (before ++ path :: after)) self in
  media (player s') = Some m /\
  current_media s' = Some m /\
  s' = run_calls vlc (map CallLoadFile (before ++ [path])) self.
Proof.
  intros Hok Hfail s'. subst s'.
  replace (before ++ path :: after)%list
    with ((before ++ [path]) ++ after)%list
    by (rewrite <- app_assoc; reflexivity).
  rewrite (run_loads_app vlc (before ++ [path])%list after).
  rewrite (run_loads_failing vlc after _ Hfail).
  rewrite (run_loads_app vlc before [path]).
  simpl. rewrite load_file_cases, Hok. simpl.
  repeat split.
Qed.

Lemma last_successful_load_wins_witness :
  loadable strict_backend "b.mp3" = Some track_b /\
  current_media
    (run_calls strict_backend
       (map CallLoadFile (["a.mp3"; "x.wav"] ++ "b.mp3" :: ["y.ogg"; "z"]))
       engine_playing_a)
  = Some track_b.
Proof.
  assert (Hok : loadable strict_backend "b.mp3" = Some track_b)
    by reflexivity.
  split; [exact Hok|].
  apply (last_successful_load_wins strict_backend ["a.mp3"; "x.wav"]
           ["y.ogg"; "z"] "b.mp3" track_b engine_playing_a Hok).
  repeat constructor.
Defined.

(** ** Further properties of the volume and mute handlers *)

Lemma last_volume_set_volume v self :
  last_volume (set_volume v self) = last_volume self.
Proof. reflexivity. Qed.

Lemma set_volume_state_ok v self :
  match last_volume self with Some l => 0 < l <= 100 | None => True end ->
  volume_state_ok (set_volume v self).
Proof.
  intros H. split.
  - rewrite get_set_volume. apply clamp_range.
  - rewrite last_volume_set_volume. exact H.
Qed.

Lemma run_volume_call_state_ok c self :
  volume_state_ok self -> volume_state_ok (run_volume_call c self).
Proof.
  intros [Hv Hl]. destruct c as [|level| |]; cbn [run_volume_call].
  - unfold toggle_mute.
    destruct (0 <? get_volume (audio_engine self)) eqn:E.
    + apply set_volume_state_ok. cbn [last_volume].
      apply Z.ltb_lt in E. lia.
    + apply set_volume_state_ok. exact Hl.
  - apply set_volume_state_ok. exact Hl.
  - apply set_volume_state_ok. exact Hl.
  - apply set_volume_state_ok. exact Hl.
Qed.

Lemma run_volume_calls_state_ok cs self :
  volume_state_ok self -> volume_state_ok (run_volume_calls cs self).
Proof.
  revert self. induction cs as [|c cs IH]; intros self H; simpl.
  - exact H.
  - apply IH. apply run_volume_call_state_ok. exact H.
Qed.

Lemma MusicPlayer_init_state_ok engine config_volume :
  volume_state_ok (MusicPlayer_init engine config_volume).
Proof. unfold MusicPlayer_init. apply set_volume_state_ok. exact I. Qed.

(** X7. Whatever the engine and the configured volume the window starts
    with, after any sequence of mute toggles, volume settings and volume
    shortcuts the observed volume is within [0,100], and the pre-mute
    volume, when one is recorded, is positive (and at most 100):
    [toggle_mute] never records a silent volume. *)
Theorem recorded_volume_is_audible
    (engine : AudioEngine) (config_volume : Z) (cs : list VolumeCall) :
  let s := run_volume_calls cs (MusicPlayer_init engine config_volume) in
  0 <= get_volume (audio_engine s) <= 100 /\
  (forall v, last_volume s = Some v -> 0 < v <= 100).
Proof.
  intros s.
  destruct (run_volume_calls_state_ok cs _
              (MusicPlayer_init_state_ok engine config_volume)) as [Hv Hl].
  fold s in Hv, Hl. split; [exact Hv|].
  intros v Hs. rewrite Hs in Hl. exact Hl.
Qed.

Lemma toggle_mute_flips_ok self :
  volume_state_ok self ->
  (get_volume (audio_engine self) = 0 ->
   0 < get_volume (audio_engine (toggle_mute self))) /\
  (0 < get_volume (audio_engine self) ->
   get_volume (audio_engine (toggle_mute self)) = 0).
Proof.
  intros [Hv Hl]. split.
  - intros H0. rewrite toggle_mute_silent by lia. rewrite get_set_volume.
    destruct (last_volume self) as [l|]; unfold clamp; lia.
  - intros Hpos. rewrite (toggle_mute_positive self Hpos). reflexivity.
Qed.

(** X8. The mute toggle cannot get stuck. In every state the window can
    reach from its start by mute toggles, volume settings and volume
    shortcuts, [toggle_mute] turns a silent player (volume 0) into an
    audible one and an audible player into a silent one. *)
Theorem toggle_mute_always_flips
    (engine : AudioEngine) (config_volume : Z) (cs : list VolumeCall) :
  let s := run_volume_calls cs (MusicPlayer_init engine config_volume) in
  (get_volume (audio_engine s) = 0 <->
   0 < get_volume (audio_engine (toggle_mute s))) /\
  (0 < get_volume (audio_engine s) <->
   get_volume (audio_engine (toggle_mute s)) = 0).
Proof.
  intros s.
  pose proof (run_volume_calls_state_ok cs _
                (MusicPlayer_init_state_ok engine config_volume)) as Hok.
  fold s in Hok.
  destruct (toggle_mute_flips_ok s Hok) as [Hsilent Haudible].
  destruct Hok as [Hv _].
  split; split.
  - exact Hsilent.
  - intros Hpos.
    destruct (Z.eq_dec (get_volume (audio_engine s)) 0) as [E|E]; [exact E|].
    assert (H1 : 0 < get_volume (audio_engine s)) by lia.
    rewrite (Haudible H1) in Hpos. lia.
  - exact Haudible.
  - intros H0.
    destruct (Z.eq_dec (get_volume (audio_engine s)) 0) as [E|E]; [|lia].
    specialize (Hsilent E). lia.
Qed.

(** X9. From an observed volume v within [0,100], the shortcut for
    volume up followed by the one for volume down gives min(v, 95), and
    down followed by up gives max(v, 5): the two shortcuts undo each other
    except within 5 of the end they run into. Neither touches the
    recorded pre-mute volume. *)
Theorem volume_shortcuts_undo_each_other (self : MusicPlayer) :
  0 <= get_volume (audio_engine self) <= 100 ->
  let v := get_volume (audio_engine self) in
  get_volume (audio_engine (hotkey_volume_down (hotkey_volume_up self)))
  = Z.min v 95 /\
  get_volume (audio_engine (hotkey_volume_up (hotkey_volume_down self)))
  = Z.max v 5 /\
  last_volume (hotkey_volume_down (hotkey_volume_up self))
  = last_volume self /\
  last_volume (hotkey_volume_up (hotkey_volume_down self))
  = last_volume self.
Proof.
  intros Hv v.
  rewrite hotkey_volume_down_observed, hotkey_volume_up_observed.
  rewrite hotkey_volume_up_observed, hotkey_volume_down_observed.
  fold v. unfold clamp.
  split; [lia|]. split; [lia|]. split; reflexivity.
Qed.

Lemma volume_shortcuts_undo_each_other_witness :
  0 <= get_volume (audio_engine
         {| audio_engine := engine_playing_a; last_volume := None |}) <= 100 /\
  get_volume (audio_engine
    (hotkey_volume_down (hotkey_volume_up
       {| audio_engine := engine_playing_a; last_volume := None |}))) = 60.
Proof.
  assert (H : 0 <= get_volume (audio_engine
                {| audio_engine := engine_playing_a; last_volume := None |})
              <= 100) by (vm_compute; split; discriminate).
  split; [exact H|].
  destruct (volume_shortcuts_undo_each_other
              {| audio_engine := engine_playing_a; last_volume := None |} H)
    as (Hdu & _).
  rewrite Hdu. reflexivity.
Defined.

(** ** Python strings and dictionaries *)

Lemma string_app_assoc (a b c : string) :
  ((a ++ b) ++ c)%string = (a ++ (b ++ c))%string.
Proof.
  induction a as [|x a IH]; [reflexivity|].
  change (String x ((a ++ b) ++ c) = String x (a ++ (b ++ c)))%string.
  f_equal. exact IH.
Qed.

Lemma lacks_app c (a b : string) :
  Py.lacks c (a ++ b) = Py.lacks c a && Py.lacks c b.
Proof.
  induction a as [|x a IH]; simpl; [reflexivity|].
  rewrite IH. rewrite andb_assoc. reflexivity.
Qed.

Lemma split_at_sep sep (a b : string) :
  Py.lacks sep a = true ->
  Py.split sep (a ++ String sep b) = a :: Py.split sep b.
Proof.
  induction a as [|x a IH]; simpl; intros H.
  - rewrite Ascii.eqb_refl. reflexivity.
  - apply andb_prop in H. destruct H as [Hx Ha].
    apply negb_true_iff in Hx. rewrite Hx, (IH Ha). reflexivity.
Qed.

Lemma get_set_same {V} (k : string) (v : V) (d : Py.dict V) :
  Py.get k (Py.set k v d) = Some v.
Proof.
  induction d as [|[k' v'] d IH]; simpl.
  - rewrite String.eqb_refl. reflexivity.
  - destruct (String.eqb k k') eqn:E; simpl.
    + rewrite String.eqb_refl. reflexivity.
    + rewrite E. exact IH.
Qed.

Lemma get_set_other {V} (k k' : string) (v : V) (d : Py.dict V) :
  k <> k' -> Py.get k (Py.set k' v d) = Py.get k d.
Proof.
  intros Hne. apply String.eqb_neq in Hne.
  induction d as [|[k2 v2] d IH]; simpl.
  - rewrite Hne. reflexivity.
  - destruct (String.eqb k' k2) eqn:E; simpl.
    + apply String.eqb_eq in E. subst k2. rewrite Hne. reflexivity.
    + destruct (String.eqb k k2); [reflexivity | exact IH].
Qed.

(** ** Further properties of the theme editor *)

Lemma contains_button_style color :
  Py.contains "background-color" (button_style color) = true.
Proof. reflexivity. Qed.

Lemma clean_parts (color : string) :
  clean color = true ->
  Py.lacks ":" color = true /\ Py.lacks ";" color = true /\
  Py.strip color = color.
Proof.
  unfold clean. intros Hclean.
  apply andb_prop in Hclean. destruct Hclean as [Hclean Hstrip].
  apply andb_prop in Hclean. destruct Hclean as [Hclean Hsemi].
  apply andb_prop in Hclean. destruct Hclean as [_ Hcolon].
  apply String.eqb_eq in Hstrip. auto.
Qed.

Lemma split_button_style (color : string) :
  Py.lacks ":" color = true ->
  Py.split ":" (button_style color)
  = ["background-color"; (String " " color ++ "; border")%string; " none;"].
Proof.
  intros Hcolon.
  assert (E : button_style color
              = ("background-color"
                 ++ String ":"
                      ((String " " color ++ "; border")
                       ++ String ":" " none;"))%string).
  { unfold button_style.
    rewrite (string_app_assoc (String " " color) "; border"
               (String ":" " none;")).
    reflexivity. }
  rewrite E.
  rewrite (split_at_sep ":" "background-color") by reflexivity.
  rewrite (split_at_sep ":" (String " " color ++ "; border"))
    by (rewrite lacks_app; simpl; rewrite Hcolon; reflexivity).
  reflexivity.
Qed.

Lemma split_colour_segment (color : string) :
  Py.lacks ";" color = true ->
  Py.split ";" (String " " color ++ "; border")
  = [String " " color; " border"].
Proof.
  intros Hsemi.
  change (String " " color ++ "; border")%string
    with (String " " color ++ String ";" " border")%string.
  rewrite (split_at_sep ";" (String " " color)) by (simpl; exact Hsemi).
  reflexivity.
Qed.

Lemma style_color_button_style (color : string) :
  clean color = true ->
  Py.contains "background-color" (button_style color) = true /\
  style_color (button_style color) = Ok color.
Proof.
  intros Hclean. destruct (clean_parts color Hclean) as (Hc & Hs & Hstrip).
  split; [reflexivity|].
  unfold style_color.
  rewrite (split_button_style color Hc). cbn [Py.index nth_error].
  rewrite (split_colour_segment color Hs). cbn [Py.index nth_error].
  f_equal. exact Hstrip.
Qed.

(** X10. A colour written into a button style sheet is read back
    unchanged: for every clean colour string (ASCII, no colon, no
    semicolon, no white space at the ends) the style sheet
    [background-color: <colour>; border: none;] is recognised as setting
    a background and [split(':')[1].split(';')[0].strip()] returns the
    colour. *)
Theorem button_style_roundtrip (color : string) :
  clean color = true ->
  Py.contains "background-color" (button_style color) = true /\
  style_color (button_style color) = Ok color.
Proof.
  intros Hclean.
  destruct (clean_parts color Hclean) as (Hcolon & Hsemi & Hstrip).
  split.
  - apply contains_button_style.
  - unfold style_color.
    rewrite (split_button_style color Hcolon). cbn [Py.index nth_error].
    rewrite (split_colour_segment color Hsemi). cbn [Py.index nth_error].
    rewrite <- Hstrip at 2. reflexivity.
Qed.

Lemma button_style_roundtrip_witness :
  clean "#1db954" = true /\
  style_color (button_style "#1db954") = Ok "#1db954".
Proof.
  assert (H : clean "#1db954" = true) by reflexivity.
  split; [exact H|].
  exact (proj2 (button_style_roundtrip "#1db954" H)).
Defined.

Lemma render_set k (o : option string) (choices : Py.dict (option string)) :
  render (Py.set k o choices) = Py.set k (style_of_choice o) (render choices).
Proof.
  induction choices as [|[k' o'] choices IH]; simpl; [reflexivity|].
  destruct (String.eqb k k'); simpl; [reflexivity|].
  rewrite IH. reflexivity.
Qed.

Lemma get_render k (choices : Py.dict (option string)) :
  Py.get k (render choices) = option_map style_of_choice (Py.get k choices).
Proof.
  induction choices as [|[k' o'] choices IH]; simpl; [reflexivity|].
  destruct (String.eqb k k'); [reflexivity | exact IH].
Qed.

Lemma keys_set_present {V} k (v x : V) (d : Py.dict V) :
  Py.get k d = Some x -> map fst (Py.set k v d) = map fst d.
Proof.
  induction d as [|[k' v'] d IH]; simpl; intros H; [discriminate H|].
  destruct (String.eqb k k') eqn:E; simpl.
  - apply String.eqb_eq in E. subst k'. reflexivity.
  - rewrite (IH H). reflexivity.
Qed.

Lemma Forall_set {V} (P : string * V -> Prop) k (v : V) (d : Py.dict V) :
  P (k, v) -> Forall P d -> Forall P (Py.set k v d).
Proof.
  intros Hkv H. induction H as [|[k' v'] d Hx Hd IH]; simpl.
  - constructor; [exact Hkv | constructor].
  - destruct (String.eqb k k'); constructor; auto.
Qed.

Lemma saved_colors_render (choices : Py.dict (option string)) (acc : Theme) :
  Forall clean_choice choices ->
  saved_colors (render choices) acc = Ok (chosen_theme choices acc).
Proof.
  intros H. revert acc.
  induction H as [|[name [color|]] choices Hc _ IH]; intros acc;
    cbn [render map style_of_choice saved_colors].
  - reflexivity.
  - destruct (style_color_button_style color Hc) as [Hin Hback].
    rewrite Hin, Hback. apply IH.
  - apply IH.
Qed.

Lemma preview_colors_render (choices : Py.dict (option string))
    (acc : Py.dict string) :
  Forall clean_choice choices ->
  preview_colors (render choices) acc = Ok (chosen_preview choices acc).
Proof.
  intros H. revert acc.
  induction H as [|[name [color|]] choices Hc _ IH]; intros acc;
    cbn [render map style_of_choice preview_colors].
  - reflexivity.
  - destruct (style_color_button_style color Hc) as [Hin Hback].
    rewrite Hin, Hback. apply IH.
  - apply IH.
Qed.

Ltac five_choices choices Hkeys :=
  let n := fresh "n" in let o := fresh "o" in
  destruct choices as [|[n o] choices]; [discriminate Hkeys|];
  destruct choices as [|[? ?] choices]; [discriminate Hkeys|];
  destruct choices as [|[? ?] choices]; [discriminate Hkeys|];
  destruct choices as [|[? ?] choices]; [discriminate Hkeys|];
  destruct choices as [|[? ?] choices]; [discriminate Hkeys|];
  destruct choices as [|[? ?] choices]; [|discriminate Hkeys];
  injection Hkeys as -> -> -> -> ->.

Lemma update_preview_frame (self : ThemeEditor) :
  color_pickers (snd (update_preview self)) = color_pickers self /\
  theme_combo (snd (update_preview self)) = theme_combo self.
Proof.
  unfold update_preview, Py.st_bind, Py.st_gets, Py.st_lift, Py.st_modify.
  destruct (preview_colors (color_pickers self) []) as [colors|e];
    [|split; reflexivity].
  destruct (Py.item "base" colors); [|split; reflexivity].
  destruct (Py.item "button" colors); [|split; reflexivity].
  destruct (Py.item "text" colors); [|split; reflexivity].
  destruct (Py.item "highlight" colors); [|split; reflexivity].
  destruct (Py.item "panel" colors); split; reflexivity.
Qed.

Lemma update_preview_render (self : ThemeEditor)
    (choices : Py.dict (option string)) :
  color_pickers self = render choices ->
  map fst choices = color_names ->
  Forall clean_choice choices ->
  update_preview self
  = (Ok tt,
     with_preview
       (Some {| preview_base := painted (default None (Py.get "base" choices));
                preview_button := painted (default None (Py.get "button" choices));
                preview_text := painted (default None (Py.get "text" choices));
                preview_highlight :=
                  painted (default None (Py.get "highlight" choices));
                preview_panel := painted (default None (Py.get "panel" choices)) |})
       self).
Proof.
  intros Hp Hkeys Hclean.
  unfold update_preview, Py.st_bind, Py.st_gets, Py.st_lift, Py.st_modify.
  rewrite Hp, (preview_colors_render choices [] Hclean).
  five_choices choices Hkeys. reflexivity.
Qed.

Lemma editor_ok_pickers (self other : ThemeEditor) :
  color_pickers other = color_pickers self -> editor_ok self -> editor_ok other.
Proof.
  intros E (choices & Hp & Hk & Hc). exists choices.
  rewrite E. auto.
Qed.

Lemma editor_ok_set (self : ThemeEditor) k color :
  clean color = true ->
  editor_ok self ->
  Py.get k (color_pickers self) <> None ->
  editor_ok (with_color_pickers
               (Py.set k (button_style color) (color_pickers self)) self).
Proof.
  intros Hclean (choices & Hp & Hk & Hc) Hin.
  exists (Py.set k (Some color) choices). cbn [color_pickers with_color_pickers].
  rewrite Hp, render_set. split; [reflexivity|].
  rewrite Hp, get_render in Hin.
  destruct (Py.get k choices) as [o|] eqn:Hget; [|contradiction Hin; reflexivity].
  split.
  - rewrite (keys_set_present k (Some color) o choices Hget). exact Hk.
  - apply Forall_set; [exact Hclean | exact Hc].
Qed.

Lemma builtin_themes_clean :
  Forall (fun theme : Theme =>
            Forall (fun entry => clean (snd entry) = true) theme)
         (map snd THEMES).
Proof. repeat constructor. Qed.

Lemma get_In {V} k (v : V) (d : Py.dict V) :
  Py.get k d = Some v -> In v (map snd d).
Proof.
  induction d as [|[k' v'] d IH]; simpl; intros H; [discriminate H|].
  destruct (String.eqb k k').
  - injection H as ->. left. reflexivity.
  - right. apply IH. exact H.
Qed.

Lemma restyle_ok (theme : Theme) (self : ThemeEditor) :
  Forall (fun entry => clean (snd entry) = true) theme ->
  editor_ok self ->
  editor_ok (with_color_pickers (restyle theme (color_pickers self)) self).
Proof.
  intros Hclean. revert self.
  induction Hclean as [|[name color] theme Hc _ IH]; intros self Hok; simpl.
  - apply (editor_ok_pickers self); [reflexivity | exact Hok].
  - destruct (Py.get name (color_pickers self)) as [old|] eqn:Hget.
    + assert (Hok' := editor_ok_set self name color Hc Hok).
      rewrite Hget in Hok'. specialize (Hok' ltac:(discriminate)).
      apply (editor_ok_pickers _ _ eq_refl) in Hok'.
      exact (IH _ Hok').
    + exact (IH self Hok).
Qed.

Lemma theme_or_dark_In theme_name : In (theme_or_dark theme_name) (map snd THEMES).
Proof.
  unfold theme_or_dark.
  destruct (Py.get theme_name THEMES) as [theme|] eqn:E.
  - apply (get_In theme_name). exact E.
  - left. reflexivity.
Qed.

Lemma theme_or_dark_clean theme_name :
  Forall (fun entry => clean (snd entry) = true) (theme_or_dark theme_name).
Proof.
  apply (proj1 (List.Forall_forall _ _) builtin_themes_clean).
  apply theme_or_dark_In.
Qed.

Lemma theme_changed_unfold theme_name self :
  theme_name <> "Custom" ->
  theme_changed theme_name self
  = update_preview
      (with_color_pickers
         (restyle (theme_or_dark theme_name) (color_pickers self)) self).
Proof.
  intros Hne. unfold theme_changed.
  apply String.eqb_neq in Hne. rewrite Hne.
  reflexivity.
Qed.

Lemma theme_changed_ok theme_name self :
  editor_ok self -> editor_ok (snd (theme_changed theme_name self)).
Proof.
  intros Hok.
  destruct (String.eqb theme_name "Custom") eqn:E.
  - unfold theme_changed. rewrite E. exact Hok.
  - apply String.eqb_neq in E. rewrite (theme_changed_unfold _ _ E).
    eapply editor_ok_pickers; [apply update_preview_frame|].
    apply restyle_ok; [apply theme_or_dark_clean | exact Hok].
Qed.

Lemma theme_changed_combo theme_name self :
  theme_combo (snd (theme_changed theme_name self)) = theme_combo self.
Proof.
  destruct (String.eqb theme_name "Custom") eqn:E.
  - unfold theme_changed. rewrite E. reflexivity.
  - apply String.eqb_neq in E. rewrite (theme_changed_unfold _ _ E).
    destruct (update_preview_frame
                (with_color_pickers
                   (restyle (theme_or_dark theme_name) (color_pickers self))
                   self)) as [_ H].
    rewrite H. reflexivity.
Qed.

Lemma pick_color_cases chosen color_name self :
  pick_color chosen color_name self =
    match chosen with
    | None => (Ok tt, self)
    | Some color =>
        match Py.get color_name (color_pickers self) with
        | None => (Raised ("KeyError: " ++ color_name), self)
        | Some _ =>
            update_preview
              (with_color_pickers
                 (Py.set color_name (button_style color) (color_pickers self))
                 self)
        end
    end.
Proof.
  destruct chosen as [color|]; [|reflexivity].
  unfold pick_color, Py.st_bind, Py.st_gets, Py.st_lift, Py.st_modify, Py.item.
  destruct (Py.get color_name (color_pickers self)); reflexivity.
Qed.

Lemma pick_color_ok chosen color_name self :
  dialog_clean (CallPickColor chosen color_name) ->
  editor_ok self -> editor_ok (snd (pick_color chosen color_name self)).
Proof.
  intros Hclean Hok. rewrite pick_color_cases.
  destruct chosen as [color|]; [|exact Hok].
  destruct (Py.get color_name (color_pickers self)) as [old|] eqn:Hget;
    [|exact Hok].
  eapply editor_ok_pickers; [apply update_preview_frame|].
  apply editor_ok_set; [exact Hclean | exact Hok |].
  rewrite Hget. discriminate.
Qed.

Lemma pick_color_combo chosen color_name self :
  theme_combo (snd (pick_color chosen color_name self)) = theme_combo self.
Proof.
  rewrite pick_color_cases.
  destruct chosen as [color|]; [|reflexivity].
  destruct (Py.get color_name (color_pickers self)); [|reflexivity].
  destruct (update_preview_frame
              (with_color_pickers
                 (Py.set color_name (button_style color) (color_pickers self))
                 self)) as [_ H].
  rewrite H. reflexivity.
Qed.

Lemma show_theme_cases text self :
  show_theme text self =
    if String.eqb (theme_combo self) text then (Ok tt, self)
    else theme_changed text (with_theme_combo text self).
Proof.
  unfold show_theme, Py.st_bind, Py.st_gets, Py.st_modify.
  destruct (String.eqb (theme_combo self) text); reflexivity.
Qed.

Lemma show_theme_ok text self :
  editor_ok self -> editor_ok (snd (show_theme text self)).
Proof.
  intros Hok. rewrite show_theme_cases.
  destruct (String.eqb (theme_combo self) text); [exact Hok|].
  apply theme_changed_ok.
  apply (editor_ok_pickers self); [reflexivity | exact Hok].
Qed.

Lemma run_editor_call_ok c self :
  dialog_clean c -> editor_ok self -> editor_ok (run_editor_call c self).
Proof.
  intros Hclean Hok. destruct c as [chosen role|text|name| |]; cbn [run_editor_call].
  - apply pick_color_ok; assumption.
  - apply show_theme_ok; assumption.
  - apply theme_changed_ok; assumption.
  - apply show_theme_ok; assumption.
  - eapply editor_ok_pickers; [apply update_preview_frame | exact Hok].
Qed.

Lemma new_editor_ok : editor_ok new_editor.
Proof.
  exists (map (fun name => (name, None)) color_names).
  split; [reflexivity|]. split; [reflexivity|].
  repeat constructor.
Qed.

(** X11. Whatever the user does in a theme editor that starts with its
    five buttons unstyled (picking colours, the dialog returning a clean colour name or being
    cancelled; choosing entries of the combo box, known or not; resetting;
    repainting), the editor keeps its five buttons in order, and neither
    [update_preview] nor the read-back loop of [save_theme] ever raises:
    no style sheet the editor writes defeats the parsing it does
    later. *)
Theorem editor_stays_readable (cs : list EditorCall) :
  Forall dialog_clean cs ->
  let e := run_editor_calls cs new_editor in
  map fst (color_pickers e) = color_names /\
  fst (update_preview e) = Ok tt /\
  exists theme : Theme, saved_colors (color_pickers e) [] = Ok theme.
Proof.
  intros Hclean e.
  assert (Hok : editor_ok e).
  { subst e. generalize new_editor new_editor_ok.
    induction Hclean as [|c cs Hc _ IH]; intros s Hs; simpl.
    - exact Hs.
    - apply IH. apply run_editor_call_ok; assumption. }
  destruct Hok as (choices & Hp & Hk & Hc).
  split.
  - rewrite Hp. unfold render. rewrite map_map. rewrite <- Hk.
    apply map_ext. intros [n o]. reflexivity.
  - split.
    + rewrite (update_preview_render e choices Hp Hk Hc). reflexivity.
    + exists (chosen_theme choices []). rewrite Hp.
      apply saved_colors_render. exact Hc.
Qed.

Lemma editor_stays_readable_witness :
  fst (update_preview
         (run_editor_calls
            [CallPickColor (Some "#ff8800") "text"; CallShowTheme "sunset";
             CallPickColor None "base"; CallPickColor (Some "#000000") "nope";
             CallResetTheme; CallThemeChanged "unknown"]
            new_editor)) = Ok tt.
Proof.
  apply (editor_stays_readable
           [CallPickColor (Some "#ff8800") "text"; CallShowTheme "sunset";
            CallPickColor None "base"; CallPickColor (Some "#000000") "nope";
            CallResetTheme; CallThemeChanged "unknown"]).
  repeat constructor.
Defined.

Lemma theme_changed_read_back theme_name self :
  theme_name <> "Custom" ->
  map fst (color_pickers self) = color_names ->
  fst (theme_changed theme_name self) = Ok tt /\
  saved_colors (color_pickers (snd (theme_changed theme_name self))) []
  = Ok (theme_or_dark theme_name) /\
  theme_combo (snd (theme_changed theme_name self)) = theme_combo self.
Proof.
  intros Hne Hkeys.
  split; [|split; [|apply theme_changed_combo]].
  - rewrite (theme_changed_unfold theme_name self Hne).
    pose proof (theme_or_dark_In theme_name) as HIn.
    destruct self as [combo pickers pv]. cbn [color_pickers] in *.
    five_choices pickers Hkeys. simpl in HIn.
    destruct HIn as [<-|[<-|[<-|[<-|[<-|[]]]]]]; reflexivity.
  - rewrite (theme_changed_unfold theme_name self Hne).
    pose proof (theme_or_dark_In theme_name) as HIn.
    destruct self as [combo pickers pv]. cbn [color_pickers] in *.
    five_choices pickers Hkeys. simpl in HIn.
    destruct HIn as [<-|[<-|[<-|[<-|[<-|[]]]]]]; reflexivity.
Qed.

(** X12. Choosing a theme in the editor and reading the editor back
    gives that theme: after [theme_changed] with any name but ["Custom"],
    on an editor with its five buttons in whatever state, the call
    returns normally, the theme that [save_theme] reads from the buttons
    is exactly the built-in theme of that name (the dark theme for a name
    [THEMES] does not have, names being case-sensitive), the preview is
    painted with its colours, and the combo box text is untouched. *)
Theorem theme_changed_roundtrip (theme_name : string) (self : ThemeEditor) :
  theme_name <> "Custom" ->
  map fst (color_pickers self) = color_names ->
  let theme := theme_or_dark theme_name in
  let e' := snd (theme_changed theme_name self) in
  fst (theme_changed theme_name self) = Ok tt /\
  saved_colors (color_pickers e') [] = Ok theme /\
  option_map preview_base (preview e') = Py.get "base" theme /\
  option_map preview_button (preview e') = Py.get "button" theme /\
  option_map preview_text (preview e') = Py.get "text" theme /\
  option_map preview_highlight (preview e') = Py.get "highlight" theme /\
  option_map preview_panel (preview e') = Py.get "panel" theme /\
  theme_combo e' = theme_combo self.
Proof.
  intros Hne Hkeys theme e'. subst e'.
  rewrite (theme_changed_unfold theme_name self Hne). fold theme.
  pose proof (theme_or_dark_In theme_name) as HIn. fold theme in HIn.
  destruct self as [combo pickers pv]. cbn [color_pickers] in *.
  five_choices pickers Hkeys.
  clearbody theme.
  simpl in HIn.
  destruct HIn as [<-|[<-|[<-|[<-|[<-|[]]]]]];
    vm_compute; repeat split.
Qed.

Lemma theme_changed_roundtrip_witness :
  "Light" <> "Custom" /\
  map fst (color_pickers new_editor) = color_names /\
  saved_colors (color_pickers (snd (theme_changed "Light" new_editor))) []
  = Ok [ ("base", "#121212"); ("text", "#ffffff"); ("highlight", "#1db954");
         ("button", "#282828"); ("panel", "#181818") ].
Proof.
  assert (Hne : "Light" <> "Custom") by discriminate.
  split; [exact Hne|]. split; [reflexivity|].
  exact (proj1 (proj2 (theme_changed_roundtrip "Light" new_editor Hne eq_refl))).
Defined.

Lemma get_chosen_theme k (choices : Py.dict (option string)) (acc : Theme) :
  distinct_keys choices ->
  Py.get k (chosen_theme choices acc)
  = saved_entry (Py.get k choices) (Py.get k acc).
Proof.
  revert acc. induction choices as [|[n o] rest IH]; intros acc Hd.
  - reflexivity.
  - destruct Hd as [Hfresh Hd]. cbn [chosen_theme Py.get].
    destruct (String.eqb k n) eqn:E.
    + apply String.eqb_eq in E. subst n.
      destruct o as [c|]; rewrite (IH _ Hd), Hfresh; cbn [saved_entry].
      * apply get_set_same.
      * reflexivity.
    + apply String.eqb_neq in E.
      destruct o as [c|]; rewrite (IH _ Hd).
      * rewrite (get_set_other k n c acc E). reflexivity.
      * reflexivity.
Qed.

Lemma color_names_distinct {V} (d : Py.dict V) :
  map fst d = color_names -> distinct_keys d.
Proof. intros Hkeys. five_choices d Hkeys. simpl. repeat split. Qed.

Lemma get_present {V} k (d : Py.dict V) :
  In k (map fst d) -> exists v, Py.get k d = Some v.
Proof.
  induction d as [|[k' v'] d IH]; simpl; intros H; [contradiction|].
  destruct (String.eqb k k') eqn:E; [eexists; reflexivity|].
  apply String.eqb_neq in E.
  destruct H as [H|H]; [congruence | apply IH; exact H].
Qed.

(** X13. A colour picked for a role is what [save_theme] stores for that
    role and what the preview paints for it, and the other roles keep
    what they had: on an editor as the handlers leave it, for each of the
    five roles and every clean colour name returned by the dialog,
    [pick_color] returns normally and the read-back theme maps the role
    to the picked colour and every other role as before. The combo box
    text does not change (it does not switch to ["Custom"]). *)
Theorem pick_color_roundtrip
    (chosen_color color_name : string) (self : ThemeEditor) :
  editor_ok self ->
  In color_name color_names ->
  clean chosen_color = true ->
  let e' := snd (pick_color (Some chosen_color) color_name self) in
  exists before after : Theme,
    saved_colors (color_pickers self) [] = Ok before /\
    fst (pick_color (Some chosen_color) color_name self) = Ok tt /\
    saved_colors (color_pickers e') [] = Ok after /\
    Py.get color_name after = Some chosen_color /\
    (forall other, other <> color_name ->
       Py.get other after = Py.get other before) /\
    option_map (fun p => Py.get color_name
                  [ ("base", preview_base p); ("button", preview_button p);
                    ("text", preview_text p);
                    ("highlight", preview_highlight p);
                    ("panel", preview_panel p) ]) (preview e')
    = Some (Some chosen_color) /\
    theme_combo e' = theme_combo self.
Proof.
  intros (choices & Hp & Hk & Hc) Hin Hclean e'. subst e'.
  assert (Hpresent : exists o, Py.get color_name choices = Some o).
  { apply get_present. rewrite Hk. exact Hin. }
  destruct Hpresent as [o Hget].
  set (choices' := Py.set color_name (Some chosen_color) choices).
  assert (Hk' : map fst choices' = color_names).
  { unfold choices'.
    rewrite (keys_set_present color_name (Some chosen_color) o choices Hget).
    exact Hk. }
  assert (Hc' : Forall clean_choice choices').
  { apply Forall_set; [exact Hclean | exact Hc]. }
  assert (Hgetp : Py.get color_name (color_pickers self)
                  = Some (style_of_choice o))
    by (rewrite Hp, get_render, Hget; reflexivity).
  assert (Hp' : Py.set color_name (button_style chosen_color)
                  (color_pickers self) = render choices').
  { rewrite Hp. unfold choices'. rewrite render_set. reflexivity. }
  assert (Hpick : pick_color (Some chosen_color) color_name self
                  = update_preview
                      (with_color_pickers
                         (Py.set color_name (button_style chosen_color)
                            (color_pickers self)) self))
    by (rewrite pick_color_cases, Hgetp; reflexivity).
  rewrite Hpick.
  rewrite (update_preview_render
             (with_color_pickers
                (Py.set color_name (button_style chosen_color)
                   (color_pickers self)) self) choices' Hp' Hk' Hc').
  cbn [fst snd color_pickers with_preview preview theme_combo option_map
       with_color_pickers].
  exists (chosen_theme choices []), (chosen_theme choices' []).
  split; [rewrite Hp; apply saved_colors_render; exact Hc|].
  split; [reflexivity|].
  split; [rewrite Hp'; apply saved_colors_render; exact Hc'|].
  split.
  { rewrite (get_chosen_theme _ _ _ (color_names_distinct _ Hk')).
    unfold choices'. rewrite get_set_same. reflexivity. }
  split.
  { intros other Hother.
    rewrite (get_chosen_theme _ _ _ (color_names_distinct _ Hk')).
    rewrite (get_chosen_theme _ _ _ (color_names_distinct _ Hk)).
    unfold choices'. rewrite (get_set_other _ _ _ _ Hother). reflexivity. }
  split; [|reflexivity].
  f_equal.
  assert (Hnew : Py.get color_name choices' = Some (Some chosen_color))
    by (unfold choices'; apply get_set_same).
  clearbody choices'. clear Hp' Hc' Hget Hp Hc Hk Hpick Hgetp.
  five_choices choices' Hk'.
  simpl in Hin.
  destruct Hin as [<-|[<-|[<-|[<-|[<-|[]]]]]];
    cbn in Hnew; injection Hnew as ->; reflexivity.
Qed.

Lemma pick_color_roundtrip_witness :
  exists before after : Theme,
    saved_colors (color_pickers new_editor) [] = Ok before /\
    fst (pick_color (Some "#ff8800") "text" new_editor) = Ok tt /\
    saved_colors
      (color_pickers (snd (pick_color (Some "#ff8800") "text" new_editor))) []
    = Ok after /\
    Py.get "text" after = Some "#ff8800".
Proof.
  assert (Hok : editor_ok new_editor).
  { exists (map (fun name => (name, None)) color_names).
    split; [reflexivity|]. split; [reflexivity|]. repeat constructor. }
  assert (Hin : In "text" color_names) by (simpl; auto).
  destruct (pick_color_roundtrip "#ff8800" "text" new_editor Hok Hin eq_refl)
    as (before & after & H1 & H2 & H3 & H4 & _).
  exists before, after. auto.
Defined.

(** X14. [reset_theme] only acts through the combo box: when the combo
    box shows another text than ["dark"], the five buttons get the dark
    theme (whatever they had) and the combo box shows ["dark"]; when it
    shows ["dark"] already, nothing runs and nothing changes, so colours
    picked by hand since the dark theme was chosen survive a reset,
    [pick_color] leaving the combo box alone. *)
Theorem reset_theme_acts_through_combo
    (self : ThemeEditor) (chosen : option string) (color_name : string) :
  map fst (color_pickers self) = color_names ->
  let picked := snd (pick_color chosen color_name self) in
  (theme_combo self <> "dark" ->
   fst (reset_theme self) = Ok tt /\
   theme_combo (snd (reset_theme self)) = "dark" /\
   saved_colors (color_pickers (snd (reset_theme self))) []
   = Ok (theme_or_dark "dark")) /\
  (theme_combo self = "dark" ->
   reset_theme self = (Ok tt, self) /\
   reset_theme picked = (Ok tt, picked)).
Proof.
  intros Hkeys picked. unfold reset_theme. split.
  - intros Hne. rewrite show_theme_cases.
    apply String.eqb_neq in Hne. rewrite Hne.
    assert (Hd : "dark" <> "Custom") by discriminate.
    destruct (theme_changed_read_back "dark" (with_theme_combo "dark" self)
                Hd Hkeys) as (H1 & H2 & H8).
    split; [exact H1|]. split; [rewrite H8; reflexivity | exact H2].
  - intros Heq. split.
    + rewrite show_theme_cases, Heq. reflexivity.
    + rewrite show_theme_cases. unfold picked.
      rewrite pick_color_combo, Heq. reflexivity.
Qed.

Lemma reset_theme_acts_through_combo_witness :
  map fst (color_pickers new_editor) = color_names /\
  theme_combo new_editor <> "dark" /\
  saved_colors (color_pickers (snd (reset_theme new_editor))) []
  = Ok [ ("base", "#121212"); ("text", "#ffffff"); ("highlight", "#1db954");
         ("button", "#282828"); ("panel", "#181818") ].
Proof.
  assert (Hne : theme_combo new_editor <> "dark") by discriminate.
  split; [reflexivity|]. split; [exact Hne|].
  destruct (reset_theme_acts_through_combo new_editor None "base" eq_refl)
    as [H _].
  destruct (H Hne) as (_ & _ & H3). exact H3.
Defined.

(** ** Properties of the theme handlers of the window *)

Arguments theme_style_sheet : simpl never.
Arguments accent_style_sheet : simpl never.

Lemma config_item_cases section option (self : MainWindow) :
  config_item section option self =
    (match Py.get section (config self) with
     | Some options =>
         match Py.get option options with
         | Some value => Ok value
         | None => Raised ("KeyError: " ++ option)
         end
     | None => Raised ("KeyError: " ++ section)
     end, self).
Proof.
  unfold config_item, Py.st_bind, Py.st_gets, Py.st_lift, Py.item.
  destruct (Py.get section (config self)) as [options|]; [|reflexivity].
  destruct (Py.get option options); reflexivity.
Qed.

Lemma config_set_cases section option value (self : MainWindow) :
  config_set section option value self =
    match Py.get section (config self) with
    | Some options =>
        (Ok tt,
         with_config
           (Py.set section (Py.set option value options) (config self)) self)
    | None => (Raised ("KeyError: " ++ section), self)
    end.
Proof.
  unfold config_set, Py.st_bind, Py.st_gets, Py.st_lift, Py.st_modify, Py.item.
  destruct (Py.get section (config self)); reflexivity.
Qed.

Lemma apply_theme_select theme_name (self : MainWindow) :
  (if String.eqb theme_name "custom"
   then Py.st_gets custom_theme
   else Py.st_lift (builtin_theme theme_name)) self
  = (Ok (selected_theme theme_name self), self).
Proof.
  unfold selected_theme.
  destruct (String.eqb theme_name "custom"); reflexivity.
Qed.

(** What [apply_theme] does when every lookup succeeds: the window is
    themed, and the outcome is that of [save_config] unless the name is
    ["custom"]. *)
Lemma apply_theme_ok save theme_name (self : MainWindow)
    base text highlight button panel options accent :
  Py.get "base" (selected_theme theme_name self) = Some base ->
  Py.get "text" (selected_theme theme_name self) = Some text ->
  Py.get "highlight" (selected_theme theme_name self) = Some highlight ->
  Py.get "button" (selected_theme theme_name self) = Some button ->
  Py.get "panel" (selected_theme theme_name self) = Some panel ->
  Py.get "appearance" (config self) = Some options ->
  Py.get "accent_color" options = Some accent ->
  apply_theme save theme_name self =
    (if String.eqb theme_name "custom" then Ok tt
     else save (themed_window theme_name self options
                  base text highlight button panel accent),
     themed_window theme_name self options
       base text highlight button panel accent).
Proof.
  intros Hb Ht Hh Hbu Hp Hs Ha.
  unfold apply_theme.
  unfold Py.st_bind at 1. rewrite apply_theme_select.
  unfold Py.st_bind, Py.st_lift, Py.st_modify, Py.item.
  rewrite Hb, Ht, Hh, Hbu, Hp.
  rewrite config_item_cases, Hs, Ha.
  cbn [config with_app_palette with_style_sheet fst snd].
  rewrite config_item_cases.
  cbn [config with_app_palette with_style_sheet fst snd].
  rewrite Hs, Ha.
  unfold themed_window.
  destruct (String.eqb theme_name "custom").
  - reflexivity.
  - rewrite config_set_cases. cbn [config with_app_palette with_style_sheet].
    rewrite Hs. unfold save_config, with_config.
    cbn [config custom_theme app_palette style_sheet].
    destruct (save _) as [[]|e]; reflexivity.
Qed.

Ltac apply_theme_raises :=
  right; split;
  [ eexists; unfold apply_theme; unfold Py.st_bind at 1;
    rewrite apply_theme_select;
    unfold Py.st_bind, Py.st_lift, Py.item;
    repeat match goal with H : Py.get _ (selected_theme _ _) = _ |- _ =>
             rewrite H; clear H end;
    try (rewrite config_item_cases;
         repeat match goal with H : Py.get _ _ = _ |- _ =>
                  rewrite H; clear H end);
    reflexivity
  | ].

(** [apply_theme] either finds the five colours and the accent colour, or
    misses one of them and raises with the window untouched. *)
Lemma apply_theme_outcome save theme_name (self : MainWindow) :
  (exists base text highlight button panel options accent,
     Py.get "base" (selected_theme theme_name self) = Some base /\
     Py.get "text" (selected_theme theme_name self) = Some text /\
     Py.get "highlight" (selected_theme theme_name self) = Some highlight /\
     Py.get "button" (selected_theme theme_name self) = Some button /\
     Py.get "panel" (selected_theme theme_name self) = Some panel /\
     Py.get "appearance" (config self) = Some options /\
     Py.get "accent_color" options = Some accent) \/
  ((exists e, apply_theme save theme_name self = (Raised e, self)) /\
   ((exists role, In role color_names /\
                  Py.get role (selected_theme theme_name self) = None) \/
    (exists e, fst (config_item "appearance" "accent_color" self) = Raised e))).
Proof.
  destruct (Py.get "base" (selected_theme theme_name self)) as [b|] eqn:Hb.
  2: { pose proof Hb as Hb'. apply_theme_raises.
       left. exists "base". split; [simpl; auto | exact Hb']. }
  destruct (Py.get "text" (selected_theme theme_name self)) as [t|] eqn:Ht.
  2: { pose proof Ht as Ht'. apply_theme_raises.
       left. exists "text". split; [simpl; auto | exact Ht']. }
  destruct (Py.get "panel" (selected_theme theme_name self)) as [p|] eqn:Hp.
  2: { pose proof Hp as Hp'. apply_theme_raises.
       left. exists "panel". split; [simpl; auto 6 | exact Hp']. }
  destruct (Py.get "button" (selected_theme theme_name self)) as [bu|] eqn:Hbu.
  2: { pose proof Hbu as Hbu'. apply_theme_raises.
       left. exists "button". split; [simpl; auto 6 | exact Hbu']. }
  destruct (Py.get "highlight" (selected_theme theme_name self)) as [h|] eqn:Hh.
  2: { pose proof Hh as Hh'. apply_theme_raises.
       left. exists "highlight". split; [simpl; auto | exact Hh']. }
  destruct (Py.get "appearance" (config self)) as [options|] eqn:Hs.
  2: { pose proof Hs as Hs'. apply_theme_raises.
       right. rewrite config_item_cases, Hs'. eexists; reflexivity. }
  destruct (Py.get "accent_color" options) as [accent|] eqn:Ha.
  2: { pose proof Hs as Hs'. pose proof Ha as Ha'. apply_theme_raises.
       right. rewrite config_item_cases, Hs', Ha'. eexists; reflexivity. }
  left. exists b, t, h, bu, p, options, accent. repeat split; assumption.
Qed.

Lemma theme_or_dark_complete theme_name :
  exists base text highlight button panel,
    Py.get "base" (theme_or_dark theme_name) = Some base /\
    Py.get "text" (theme_or_dark theme_name) = Some text /\
    Py.get "highlight" (theme_or_dark theme_name) = Some highlight /\
    Py.get "button" (theme_or_dark theme_name) = Some button /\
    Py.get "panel" (theme_or_dark theme_name) = Some panel.
Proof.
  pose proof (theme_or_dark_In theme_name) as HIn.
  simpl in HIn.
  destruct HIn as [<-|[<-|[<-|[<-|[<-|[]]]]]];
    do 5 eexists; repeat split; reflexivity.
Qed.

Lemma selected_builtin theme_name self :
  theme_name <> "custom" ->
  selected_theme theme_name self = theme_or_dark theme_name.
Proof.
  intros Hne. unfold selected_theme.
  apply String.eqb_neq in Hne. rewrite Hne. reflexivity.
Qed.

Lemma apply_builtin_theme save theme_name (self : MainWindow) options accent :
  theme_name <> "custom" ->
  Py.get "appearance" (config self) = Some options ->
  Py.get "accent_color" options = Some accent ->
  exists base text highlight button panel,
    Py.get "base" (theme_or_dark theme_name) = Some base /\
    Py.get "text" (theme_or_dark theme_name) = Some text /\
    Py.get "highlight" (theme_or_dark theme_name) = Some highlight /\
    Py.get "button" (theme_or_dark theme_name) = Some button /\
    Py.get "panel" (theme_or_dark theme_name) = Some panel /\
    apply_theme save theme_name self =
      (save {| config := Py.set "appearance"
                           (Py.set "theme" theme_name options) (config self);
               custom_theme := custom_theme self;
               app_palette :=
                 Some (theme_palette base text highlight button panel accent);
               style_sheet :=
                 theme_style_sheet base button text panel accent |},
       {| config := Py.set "appearance" (Py.set "theme" theme_name options)
                      (config self);
          custom_theme := custom_theme self;
          app_palette :=
            Some (theme_palette base text highlight button panel accent);
          style_sheet := theme_style_sheet base button text panel accent |}).
Proof.
  intros Hne Hs Ha.
  destruct (theme_or_dark_complete theme_name)
    as (b & t & h & bu & p & Hb & Ht & Hh & Hbu & Hp).
  exists b, t, h, bu, p. repeat (split; [assumption|]).
  rewrite <- (selected_builtin theme_name self Hne) in Hb, Ht, Hh, Hbu, Hp.
  rewrite (apply_theme_ok save theme_name self b t h bu p options accent
             Hb Ht Hh Hbu Hp Hs Ha).
  unfold themed_window.
  apply String.eqb_neq in Hne. rewrite Hne. reflexivity.
Qed.

(** X15. For every theme name other than ["custom"], known or not, and
    every configuration that has an accent colour, [apply_theme] finds
    all it looks up: it installs the palette and the style sheet of the
    built-in theme of that name, with the accent colour as [Highlight],
    records the name as given under [appearance/theme], and only then
    calls [save_config], whose outcome is the outcome of [apply_theme]:
    it returns normally exactly when [save_config] does, and the window
    is themed either way. A name [THEMES] does not have (names are
    case-sensitive) is therefore shown with the dark theme and still
    recorded under the unknown name. *)
Theorem apply_theme_builtin_or_dark
    (save : MainWindow -> result unit)
    (theme_name : string) (self : MainWindow)
    (options : Py.dict string) (accent : string) :
  theme_name <> "custom" ->
  Py.get "appearance" (config self) = Some options ->
  Py.get "accent_color" options = Some accent ->
  let theme := theme_or_dark theme_name in
  let w' := snd (apply_theme save theme_name self) in
  fst (apply_theme save theme_name self) = save w' /\
  (exists base text highlight button panel,
     Py.get "base" theme = Some base /\
     Py.get "text" theme = Some text /\
     Py.get "highlight" theme = Some highlight /\
     Py.get "button" theme = Some button /\
     Py.get "panel" theme = Some panel /\
     app_palette w'
     = Some (theme_palette base text highlight button panel accent) /\
     style_sheet w' = theme_style_sheet base button text panel accent) /\
  fst (config_item "appearance" "theme" w') = Ok theme_name /\
  fst (config_item "appearance" "accent_color" w') = Ok accent /\
  custom_theme w' = custom_theme self /\
  (Py.get theme_name THEMES = None -> theme = theme_or_dark "dark").
Proof.
  intros Hne Hs Ha theme w'. subst theme w'.
  destruct (apply_builtin_theme save theme_name self options accent Hne Hs Ha)
    as (b & t & h & bu & p & Hb & Ht & Hh & Hbu & Hp & Happly).
  rewrite Happly. cbn [fst snd].
  split; [reflexivity|].
  split.
  { exists b, t, h, bu, p. repeat (split; [assumption|]). split; reflexivity. }
  rewrite !config_item_cases. cbn [fst config].
  rewrite get_set_same, get_set_same.
  rewrite (get_set_other "accent_color" "theme") by discriminate.
  rewrite Ha.
  split; [reflexivity|]. split; [reflexivity|]. split; [reflexivity|].
  intros Hnone. unfold theme_or_dark at 1. rewrite Hnone. reflexivity.
Qed.

Lemma apply_theme_builtin_or_dark_witness :
  "Light" <> "custom" /\
  fst (apply_theme save_config_undefined "Light" default_window)
  = Raised "AttributeError: 'MusicPlayer' object has no attribute 'save_config'" /\
  fst (config_item "appearance" "theme"
         (snd (apply_theme save_config_undefined "Light" default_window)))
  = Ok "Light" /\
  option_map Window
    (app_palette (snd (apply_theme save_config_returns "Light" default_window)))
  = Some "#121212".
Proof.
  assert (Hne : "Light" <> "custom") by discriminate.
  split; [exact Hne|].
  destruct (apply_theme_builtin_or_dark save_config_undefined "Light"
              default_window
              [ ("theme", "dark"); ("font_size", "12");
                ("accent_color", "#1db954"); ("custom_theme", "{}");
                ("window_opacity", "100") ] "#1db954" Hne eq_refl eq_refl)
    as (Hout & _ & Hname & _).
  split; [rewrite Hout; reflexivity|]. split; [exact Hname|].
  destruct (apply_theme_builtin_or_dark save_config_returns "Light"
              default_window
              [ ("theme", "dark"); ("font_size", "12");
                ("accent_color", "#1db954"); ("custom_theme", "{}");
                ("window_opacity", "100") ] "#1db954" Hne eq_refl eq_refl)
    as (_ & (b & t & h & bu & p & Hb & _ & _ & _ & _ & Hpal & _) & _).
  rewrite Hpal. cbn [option_map Window theme_palette].
  vm_compute in Hb. injection Hb as <-. reflexivity.
Defined.

Lemma lookups_succeed_gets theme_name (self : MainWindow)
    base text highlight button panel options accent :
  Py.get "base" (selected_theme theme_name self) = Some base ->
  Py.get "text" (selected_theme theme_name self) = Some text ->
  Py.get "highlight" (selected_theme theme_name self) = Some highlight ->
  Py.get "button" (selected_theme theme_name self) = Some button ->
  Py.get "panel" (selected_theme theme_name self) = Some panel ->
  Py.get "appearance" (config self) = Some options ->
  Py.get "accent_color" options = Some accent ->
  lookups_succeed theme_name self.
Proof.
  intros Hb Ht Hh Hbu Hp Hs Ha. split.
  - intros role Hin. simpl in Hin.
    destruct Hin as [<-|[<-|[<-|[<-|[<-|[]]]]]]; congruence.
  - exists accent. rewrite config_item_cases, Hs, Ha. reflexivity.
Qed.

Lemma lookups_fail_not_succeed theme_name (self : MainWindow) :
  (exists role, In role color_names /\
                Py.get role (selected_theme theme_name self) = None) \/
  (exists e, fst (config_item "appearance" "accent_color" self) = Raised e) ->
  ~ lookups_succeed theme_name self.
Proof.
  intros Hwhy [Hcomplete [accent Hacc]].
  destruct Hwhy as [(role & Hin & Hnone) | [e He]].
  - exact (Hcomplete role Hin Hnone).
  - rewrite Hacc in He. discriminate He.
Qed.

(** X16. The lookups decide whether [apply_theme] changes the window.
    When the theme it works with (the custom theme for ["custom"], a
    built-in one otherwise) lacks one of the five roles or the
    configuration lacks the accent colour, it raises (a [KeyError]) and
    leaves the window exactly as it was. When all of them are found, the
    palette and the style sheet are installed, and what is left can only
    fail in [save_config], which runs for a name other than ["custom"]
    after the name was recorded: the outcome is then that of
    [save_config] on the themed window. For ["custom"] the call is all or
    nothing: it returns normally exactly when the lookups succeed, and
    otherwise the window is untouched. *)
Theorem apply_theme_lookups_decide
    (save : MainWindow -> result unit)
    (theme_name : string) (self : MainWindow) :
  (~ lookups_succeed theme_name self ->
   exists e, apply_theme save theme_name self = (Raised e, self)) /\
  (lookups_succeed theme_name self ->
   exists options base text highlight button panel accent,
     snd (apply_theme save theme_name self)
     = themed_window theme_name self options
         base text highlight button panel accent /\
     fst (apply_theme save theme_name self)
     = if String.eqb theme_name "custom" then Ok tt
       else save (themed_window theme_name self options
                    base text highlight button panel accent)) /\
  (fst (apply_theme save "custom" self) = Ok tt <->
   lookups_succeed "custom" self) /\
  (fst (apply_theme save "custom" self) <> Ok tt ->
   exists e, apply_theme save "custom" self = (Raised e, self)).
Proof.
  split; [|split; [|split]].
  - intros Hnot.
    destruct (apply_theme_outcome save theme_name self)
      as [(b & t & h & bu & p & options & accent &
           Hb & Ht & Hh & Hbu & Hp & Hs & Ha)
         | [He _]]; [|exact He].
    exfalso. apply Hnot.
    exact (lookups_succeed_gets theme_name self b t h bu p options accent
             Hb Ht Hh Hbu Hp Hs Ha).
  - intros Hready.
    destruct (apply_theme_outcome save theme_name self)
      as [(b & t & h & bu & p & options & accent &
           Hb & Ht & Hh & Hbu & Hp & Hs & Ha)
         | [_ Hwhy]].
    + exists options, b, t, h, bu, p, accent.
      rewrite (apply_theme_ok save theme_name self b t h bu p options accent
                 Hb Ht Hh Hbu Hp Hs Ha).
      split; reflexivity.
    + exfalso.
      exact (lookups_fail_not_succeed theme_name self Hwhy Hready).
  - destruct (apply_theme_outcome save "custom" self)
      as [(b & t & h & bu & p & options & accent &
           Hb & Ht & Hh & Hbu & Hp & Hs & Ha)
         | [[e He] Hwhy]].
    + rewrite (apply_theme_ok save "custom" self b t h bu p options accent
                 Hb Ht Hh Hbu Hp Hs Ha).
      split; [intros _ | intros _; reflexivity].
      exact (lookups_succeed_gets "custom" self b t h bu p options accent
               Hb Ht Hh Hbu Hp Hs Ha).
    + rewrite He. split; [intros H; discriminate H|].
      intros Hready. exfalso.
      exact (lookups_fail_not_succeed "custom" self Hwhy Hready).
  - intros Hno.
    destruct (apply_theme_outcome save "custom" self)
      as [(b & t & h & bu & p & options & accent &
           Hb & Ht & Hh & Hbu & Hp & Hs & Ha)
         | [He _]]; [|exact He].
    exfalso. apply Hno.
    rewrite (apply_theme_ok save "custom" self b t h bu p options accent
               Hb Ht Hh Hbu Hp Hs Ha). reflexivity.
Qed.

(** X17. Applying the custom theme is not recorded: when the custom theme
    has its five colours and the configuration an accent colour,
    [apply_theme("custom")] installs the palette and style sheet of the
    custom theme and leaves the configuration untouched, so
    [appearance/theme] still names the theme selected before. *)
Theorem apply_custom_theme_is_not_recorded
    (save : MainWindow -> result unit)
    (self : MainWindow) (base text highlight button panel : string)
    (options : Py.dict string) (accent : string) :
  Py.get "base" (custom_theme self) = Some base ->
  Py.get "text" (custom_theme self) = Some text ->
  Py.get "highlight" (custom_theme self) = Some highlight ->
  Py.get "button" (custom_theme self) = Some button ->
  Py.get "panel" (custom_theme self) = Some panel ->
  Py.get "appearance" (config self) = Some options ->
  Py.get "accent_color" options = Some accent ->
  let w' := snd (apply_theme save "custom" self) in
  fst (apply_theme save "custom" self) = Ok tt /\
  app_palette w' = Some (theme_palette base text highlight button panel accent) /\
  style_sheet w' = theme_style_sheet base button text panel accent /\
  config w' = config self /\
  fst (config_item "appearance" "theme" w')
  = fst (config_item "appearance" "theme" self).
Proof.
  intros Hb Ht Hh Hbu Hp Hs Ha w'. subst w'.
  rewrite (apply_theme_ok save "custom" self base text highlight button panel
             options accent Hb Ht Hh Hbu Hp Hs Ha).
  unfold themed_window.
  cbn [fst snd app_palette style_sheet].
  change (String.eqb "custom" "custom") with true. cbn [config].
  split; [reflexivity|]. split; [reflexivity|]. split; [reflexivity|].
  split; [reflexivity|].
  rewrite !config_item_cases. reflexivity.
Qed.

Lemma apply_custom_theme_is_not_recorded_witness :
  fst (config_item "appearance" "theme"
         (snd (apply_theme save_config_undefined "custom"
                 (with_custom_theme (theme_or_dark "sunset") default_window))))
  = Ok "dark".
Proof.
  destruct (apply_custom_theme_is_not_recorded save_config_undefined
              (with_custom_theme (theme_or_dark "sunset") default_window)
              "#2d3436" "#ffeaa7" "#e17055" "#3c4245" "#353b3c"
              [ ("theme", "dark"); ("font_size", "12");
                ("accent_color", "#1db954"); ("custom_theme", "{}");
                ("window_opacity", "100") ] "#1db954"
              eq_refl eq_refl eq_refl eq_refl eq_refl eq_refl eq_refl)
    as (_ & _ & _ & _ & H).
  rewrite H. reflexivity.
Defined.

Lemma save_custom_theme_cases json save theme (self : MainWindow) :
  save_custom_theme json save theme self =
    match Py.get "appearance" (config self) with
    | Some options =>
        let stored :=
          with_config
            (Py.set "appearance"
               (Py.set "custom_theme" (dumps json theme) options)
               (config self))
            (with_custom_theme theme self) in
        match save stored with
        | Ok _ => apply_theme save "custom" stored
        | Raised e => (Raised e, stored)
        end
    | None => (Raised "KeyError: appearance", with_custom_theme theme self)
    end.
Proof.
  unfold save_custom_theme, Py.st_bind, Py.st_modify.
  rewrite config_set_cases. cbn [config with_custom_theme].
  destruct (Py.get "appearance" (config self)) as [options|]; [|reflexivity].
  cbn zeta. unfold save_config.
  destruct (save _); reflexivity.
Qed.

(** The custom theme and the configuration after [save_custom_theme], in
    a configuration with an appearance section, whether [save_config]
    and the final [apply_theme] returned or raised. *)
Lemma save_custom_theme_stored json save theme (self : MainWindow) options :
  Py.get "appearance" (config self) = Some options ->
  custom_theme (snd (save_custom_theme json save theme self)) = theme /\
  config (snd (save_custom_theme json save theme self))
  = Py.set "appearance" (Py.set "custom_theme" (dumps json theme) options)
      (config self).
Proof.
  intros Hs. rewrite save_custom_theme_cases, Hs. cbn zeta.
  set (w1 := with_config _ (with_custom_theme theme self)).
  destruct (save w1) as [[]|e0]; [|split; reflexivity].
  destruct (apply_theme_outcome save "custom" w1)
    as [(b & t & h & bu & p & o & a & Hb & Ht & Hh & Hbu & Hp & Ho & Ha)
       | [[e He] _]].
  - rewrite (apply_theme_ok save "custom" w1 b t h bu p o a
               Hb Ht Hh Hbu Hp Ho Ha).
    split; reflexivity.
  - rewrite He. split; reflexivity.
Qed.

(** X18. [save_custom_theme] stores before it applies. Given a theme that
    lacks one of the five roles (the theme [save_theme] reads from an
    editor in which not every button was coloured, the empty theme for a
    fresh editor), it raises, out of [save_config] or else a [KeyError]
    out of [apply_theme], yet the custom theme of the window and the
    [appearance/custom_theme] option are already replaced by the
    incomplete theme, while palette and style sheet are the old ones. *)
Theorem save_custom_theme_stores_before_it_fails
    (json : Json) (save : MainWindow -> result unit)
    (theme : Theme) (self : MainWindow)
    (options : Py.dict string) (role : string) :
  Py.get "appearance" (config self) = Some options ->
  In role color_names ->
  Py.get role theme = None ->
  let w' := snd (save_custom_theme json save theme self) in
  (exists e, fst (save_custom_theme json save theme self) = Raised e) /\
  custom_theme w' = theme /\
  fst (config_item "appearance" "custom_theme" w') = Ok (dumps json theme) /\
  app_palette w' = app_palette self /\
  style_sheet w' = style_sheet self.
Proof.
  intros Hs Hin Hnone w'. subst w'.
  destruct (save_custom_theme_stored json save theme self options Hs)
    as [Hct Hcfg].
  assert (Hitem : fst (config_item "appearance" "custom_theme"
                         (snd (save_custom_theme json save theme self)))
                  = Ok (dumps json theme)).
  { rewrite config_item_cases. cbn [fst]. rewrite Hcfg.
    rewrite !get_set_same. reflexivity. }
  split; [|split; [exact Hct | split; [exact Hitem|]]].
  - rewrite save_custom_theme_cases, Hs. cbn zeta.
    set (w1 := with_config _ (with_custom_theme theme self)).
    destruct (save w1) as [[]|e0]; [|exists e0; reflexivity].
    destruct (apply_theme_outcome save "custom" w1)
      as [(b & t & h & bu & p & o & a & Hb & Ht & Hh & Hbu & Hp & _)
         | [[e He] _]].
    + exfalso. change (selected_theme "custom" w1) with theme in *.
      simpl in Hin.
      destruct Hin as [<-|[<-|[<-|[<-|[<-|[]]]]]]; congruence.
    + exists e. rewrite He. reflexivity.
  - rewrite save_custom_theme_cases, Hs. cbn zeta.
    set (w1 := with_config _ (with_custom_theme theme self)).
    destruct (save w1) as [[]|e0]; [|split; reflexivity].
    destruct (apply_theme_outcome save "custom" w1)
      as [(b & t & h & bu & p & o & a & Hb & Ht & Hh & Hbu & Hp & _)
         | [[e He] _]].
    + exfalso. change (selected_theme "custom" w1) with theme in *.
      simpl in Hin.
      destruct Hin as [<-|[<-|[<-|[<-|[<-|[]]]]]]; congruence.
    + rewrite He. split; reflexivity.
Qed.

Lemma save_custom_theme_stores_before_it_fails_witness :
  saved_colors (color_pickers new_editor) [] = Ok [] /\
  fst (save_theme empty_json save_config_returns new_editor default_window)
  = Raised "KeyError: base" /\
  fst (config_item "appearance" "custom_theme"
         (snd (save_custom_theme empty_json save_config_returns []
                 default_window)))
  = Ok "{}" /\
  app_palette (snd (save_custom_theme empty_json save_config_returns []
                      default_window)) = None.
Proof.
  assert (Hin : In "base" color_names) by (simpl; auto).
  destruct (save_custom_theme_stores_before_it_fails empty_json
              save_config_returns []
              default_window
              [ ("theme", "dark"); ("font_size", "12");
                ("accent_color", "#1db954"); ("custom_theme", "{}");
                ("window_opacity", "100") ] "base" eq_refl Hin eq_refl)
    as (_ & _ & Hitem & Hpal & _).
  split; [reflexivity|]. split; [reflexivity|].
  split; [exact Hitem | exact Hpal].
Defined.

(** X19. Saving the editor right after a built-in theme was chosen in it.
    For a name other than ["Custom"] and ["custom"], [save_theme] on the
    editor left by [theme_changed] stores the theme as the custom theme
    and under [appearance/custom_theme] and calls [save_config] on the
    window so changed. When [save_config] returns there, [save_theme]
    returns normally and installs the same palette and style sheet as
    [apply_theme] with that name and, unlike [apply_theme], leaves
    [appearance/theme] as it was. When [save_config] raises there,
    [save_theme] raises the same exception and the window keeps the
    stored theme with its old palette and style sheet. *)
Theorem save_theme_after_theme_changed
    (json : Json) (save : MainWindow -> result unit)
    (theme_name : string) (editor : ThemeEditor)
    (self : MainWindow) (options : Py.dict string) (accent : string) :
  theme_name <> "Custom" ->
  theme_name <> "custom" ->
  map fst (color_pickers editor) = color_names ->
  Py.get "appearance" (config self) = Some options ->
  Py.get "accent_color" options = Some accent ->
  let styled := snd (theme_changed theme_name editor) in
  let stored :=
    with_config
      (Py.set "appearance"
         (Py.set "custom_theme" (dumps json (theme_or_dark theme_name)) options)
         (config self))
      (with_custom_theme (theme_or_dark theme_name) self) in
  let saved := snd (save_theme json save styled self) in
  let applied := snd (apply_theme save theme_name self) in
  (save stored = Ok tt ->
   fst (save_theme json save styled self) = Ok tt /\
   app_palette saved = app_palette applied /\
   style_sheet saved = style_sheet applied /\
   custom_theme saved = theme_or_dark theme_name /\
   fst (config_item "appearance" "custom_theme" saved)
   = Ok (dumps json (theme_or_dark theme_name)) /\
   fst (config_item "appearance" "theme" saved)
   = fst (config_item "appearance" "theme" self) /\
   fst (config_item "appearance" "theme" applied) = Ok theme_name) /\
  (forall e, save stored = Raised e ->
   save_theme json save styled self = (Raised e, stored) /\
   app_palette saved = app_palette self /\
   style_sheet saved = style_sheet self).
Proof.
  intros HneC Hnec Hkeys Hs Ha styled stored saved applied.
  destruct (theme_changed_read_back theme_name editor HneC Hkeys)
    as (_ & Hsaved & _).
  fold styled in Hsaved.
  destruct (apply_builtin_theme save theme_name self options accent Hnec Hs Ha)
    as (b & t & h & bu & p & Hb & Ht & Hh & Hbu & Hp & Happly).
  assert (Hsave : save_theme json save styled self
                  = save_custom_theme json save (theme_or_dark theme_name) self).
  { unfold save_theme, Py.st_bind, Py.st_lift. rewrite Hsaved. reflexivity. }
  subst saved applied. rewrite Hsave, Happly.
  rewrite save_custom_theme_cases, Hs. cbn zeta. fold stored.
  split.
  - intros Hret. rewrite Hret.
    assert (Hs1 : Py.get "appearance" (config stored)
                  = Some (Py.set "custom_theme"
                            (dumps json (theme_or_dark theme_name)) options))
      by (unfold stored; cbn [config with_config]; apply get_set_same).
    assert (Ha1 : Py.get "accent_color"
                    (Py.set "custom_theme"
                       (dumps json (theme_or_dark theme_name)) options)
                  = Some accent)
      by (rewrite get_set_other by discriminate; exact Ha).
    rewrite (apply_theme_ok save "custom" stored b t h bu p _ accent
               Hb Ht Hh Hbu Hp Hs1 Ha1).
    unfold themed_window.
    cbn [fst snd app_palette style_sheet custom_theme].
    change (String.eqb "custom" "custom") with true.
    split; [reflexivity|]. split; [reflexivity|]. split; [reflexivity|].
    split; [reflexivity|].
    rewrite !config_item_cases. cbn [fst config].
    unfold stored. cbn [config with_config with_custom_theme].
    rewrite !get_set_same.
    rewrite (get_set_other "theme" "custom_theme") by discriminate.
    rewrite Hs.
    split; [reflexivity|]. split; reflexivity.
  - intros e Hraise. rewrite Hraise.
    split; [reflexivity|]. split; reflexivity.
Qed.

Lemma save_theme_after_theme_changed_witness :
  app_palette
    (snd (save_theme empty_json save_config_returns
            (snd (theme_changed "midnight" new_editor)) default_window))
  = app_palette (snd (apply_theme save_config_returns "midnight"
                        default_window)) /\
  app_palette
    (snd (save_theme empty_json save_config_undefined
            (snd (theme_changed "midnight" new_editor)) default_window))
  = None.
Proof.
  assert (H1 : "midnight" <> "Custom") by discriminate.
  assert (H2 : "midnight" <> "custom") by discriminate.
  split.
  - destruct (save_theme_after_theme_changed empty_json save_config_returns
                "midnight" new_editor default_window
                [ ("theme", "dark"); ("font_size", "12");
                  ("accent_color", "#1db954"); ("custom_theme", "{}");
                  ("window_opacity", "100") ] "#1db954"
                H1 H2 eq_refl eq_refl eq_refl) as (Hret & _).
    exact (proj1 (proj2 (Hret eq_refl))).
  - destruct (save_theme_after_theme_changed empty_json save_config_undefined
                "midnight" new_editor default_window
                [ ("theme", "dark"); ("font_size", "12");
                  ("accent_color", "#1db954"); ("custom_theme", "{}");
                  ("window_opacity", "100") ] "#1db954"
                H1 H2 eq_refl eq_refl eq_refl) as (_ & Hraise).
    exact (proj1 (proj2 (Hraise _ eq_refl))).
Defined.

Lemma apply_accent_color_cases save color_hex (self : MainWindow) :
  apply_accent_color save color_hex self =
    match Py.get "appearance" (config self) with
    | Some options =>
        let recorded :=
          with_config
            (Py.set "appearance" (Py.set "accent_color" color_hex options)
               (config self)) self in
        match save recorded with
        | Ok _ => (Ok tt,
                   {| config := config recorded;
                      custom_theme := custom_theme self;
                      app_palette := app_palette self;
                      style_sheet := accent_style_sheet color_hex |})
        | Raised e => (Raised e, recorded)
        end
    | None => (Raised "KeyError: appearance", self)
    end.
Proof.
  unfold apply_accent_color, Py.st_bind.
  rewrite config_set_cases.
  destruct (Py.get "appearance" (config self)) as [options|]; [|reflexivity].
  cbn zeta. unfold save_config.
  destruct (save _) as [[]|e]; [|reflexivity].
  unfold update_ui_colors, Py.st_bind, Py.st_modify.
  rewrite config_item_cases. cbn [config with_config].
  rewrite !get_set_same. reflexivity.
Qed.

Ltac destruct_save :=
  match goal with
  | |- context [match ?save ?w with Ok _ => _ | Raised _ => _ end] =>
      destruct (save w) as [[]|?]
  end.

(** X20. The accent colour and the theme do not commute. For a theme
    name other than ["custom"] and a configuration with an accent colour,
    in both orders the configuration ends with the new accent and the
    theme name, and the palette has the old accent as [Highlight] when
    the theme came first and the new one when the accent came first.
    When [save_config] always returns, [apply_accent_color] after
    [apply_theme] replaces the whole style sheet of the window by the two
    accent rules, so that nothing of the theme is left in it, while
    [apply_theme] after [apply_accent_color] gives the themed style sheet
    with the new accent. When [save_config] always raises,
    [apply_accent_color] stops before it restyles: the style sheet is the
    themed one in both orders, with the old accent when the theme came
    first and the new accent otherwise. *)
Theorem accent_and_theme_do_not_commute
    (save : MainWindow -> result unit)
    (theme_name color_hex : string) (self : MainWindow)
    (options : Py.dict string) (accent : string) :
  theme_name <> "custom" ->
  Py.get "appearance" (config self) = Some options ->
  Py.get "accent_color" options = Some accent ->
  let theme_then_accent :=
    snd (apply_accent_color save color_hex
           (snd (apply_theme save theme_name self))) in
  let accent_then_theme :=
    snd (apply_theme save theme_name
           (snd (apply_accent_color save color_hex self))) in
  exists base text highlight button panel,
    Py.get "base" (theme_or_dark theme_name) = Some base /\
    Py.get "text" (theme_or_dark theme_name) = Some text /\
    Py.get "highlight" (theme_or_dark theme_name) = Some highlight /\
    Py.get "button" (theme_or_dark theme_name) = Some button /\
    Py.get "panel" (theme_or_dark theme_name) = Some panel /\
    app_palette theme_then_accent
    = Some (theme_palette base text highlight button panel accent) /\
    app_palette accent_then_theme
    = Some (theme_palette base text highlight button panel color_hex) /\
    style_sheet accent_then_theme
    = theme_style_sheet base button text panel color_hex /\
    fst (config_item "appearance" "accent_color" theme_then_accent)
    = Ok color_hex /\
    fst (config_item "appearance" "accent_color" accent_then_theme)
    = Ok color_hex /\
    fst (config_item "appearance" "theme" theme_then_accent) = Ok theme_name /\
    fst (config_item "appearance" "theme" accent_then_theme) = Ok theme_name /\
    ((forall w, save w = Ok tt) ->
     style_sheet theme_then_accent = accent_style_sheet color_hex /\
     fst (apply_accent_color save color_hex
            (snd (apply_theme save theme_name self))) = Ok tt /\
     fst (apply_theme save theme_name
            (snd (apply_accent_color save color_hex self))) = Ok tt) /\
    (forall e, (forall w, save w = Raised e) ->
     style_sheet theme_then_accent
     = theme_style_sheet base button text panel accent /\
     fst (apply_accent_color save color_hex
            (snd (apply_theme save theme_name self))) = Raised e /\
     fst (apply_theme save theme_name
            (snd (apply_accent_color save color_hex self))) = Raised e).
Proof.
  intros Hne Hs Ha ta at_.
  destruct (apply_builtin_theme save theme_name self options accent Hne Hs Ha)
    as (b & t & h & bu & p & Hb & Ht & Hh & Hbu & Hp & Happly).
  exists b, t, h, bu, p. repeat (split; [assumption|]).
  (* theme, then accent *)
  set (themed := snd (apply_theme save theme_name self)) in *.
  assert (Hthemed : themed =
    {| config := Py.set "appearance" (Py.set "theme" theme_name options)
                   (config self);
       custom_theme := custom_theme self;
       app_palette := Some (theme_palette b t h bu p accent);
       style_sheet := theme_style_sheet b bu t p accent |}).
  { subst themed. rewrite Happly. reflexivity. }
  assert (Hst : Py.get "appearance" (config themed)
                = Some (Py.set "theme" theme_name options))
    by (rewrite Hthemed; cbn [config]; apply get_set_same).
  assert (Hta_cfg : config ta
                    = Py.set "appearance"
                        (Py.set "accent_color" color_hex
                           (Py.set "theme" theme_name options))
                        (config themed)).
  { subst ta. rewrite apply_accent_color_cases, Hst. cbn zeta.
    destruct_save; reflexivity. }
  assert (Hta_pal : app_palette ta
                    = Some (theme_palette b t h bu p accent)).
  { subst ta. rewrite apply_accent_color_cases, Hst. cbn zeta.
    destruct_save; cbn [snd app_palette with_config];
      rewrite Hthemed; reflexivity. }
  (* accent, then theme *)
  set (w1 := snd (apply_accent_color save color_hex self)) in *.
  assert (Hs1 : Py.get "appearance" (config w1)
                = Some (Py.set "accent_color" color_hex options)).
  { subst w1. rewrite apply_accent_color_cases, Hs. cbn zeta.
    destruct_save; cbn [snd config with_config];
      apply get_set_same. }
  assert (Ha1 : Py.get "accent_color" (Py.set "accent_color" color_hex options)
                = Some color_hex) by apply get_set_same.
  destruct (apply_builtin_theme save theme_name w1 _ color_hex Hne Hs1 Ha1)
    as (b' & t' & h' & bu' & p' & Hb' & Ht' & Hh' & Hbu' & Hp' & Happly1).
  assert (b' = b) by congruence. assert (t' = t) by congruence.
  assert (h' = h) by congruence. assert (bu' = bu) by congruence.
  assert (p' = p) by congruence. subst b' t' h' bu' p'.
  assert (Hat : at_ = snd (apply_theme save theme_name w1)) by reflexivity.
  rewrite Happly1 in Hat. cbn [snd] in Hat.
  split; [exact Hta_pal|].
  split; [rewrite Hat; reflexivity|].
  split; [rewrite Hat; reflexivity|].
  rewrite !config_item_cases. cbn [fst]. rewrite Hta_cfg, Hat. cbn [config].
  rewrite !get_set_same.
  rewrite (get_set_other "theme" "accent_color") by discriminate.
  rewrite !get_set_same.
  rewrite (get_set_other "accent_color" "theme") by discriminate.
  rewrite !get_set_same.
  split; [reflexivity|]. split; [reflexivity|].
  split; [reflexivity|]. split; [reflexivity|].
  split.
  - intros Hret. rewrite Happly1. cbn [fst].
    subst ta. rewrite apply_accent_color_cases, Hst. cbn zeta.
    rewrite !Hret. cbn [fst snd style_sheet].
    split; [reflexivity|]. split; reflexivity.
  - intros e Hraise. rewrite Happly1. cbn [fst].
    subst ta. rewrite apply_accent_color_cases, Hst. cbn zeta.
    rewrite !Hraise. cbn [fst snd style_sheet with_config].
    rewrite Hthemed.
    split; [reflexivity|]. split; reflexivity.
Qed.

Lemma accent_and_theme_do_not_commute_witness :
  style_sheet
    (snd (apply_accent_color save_config_returns "#ff0000"
            (snd (apply_theme save_config_returns "light" default_window))))
  = accent_style_sheet "#ff0000" /\
  option_map Highlight
    (app_palette
       (snd (apply_accent_color save_config_returns "#ff0000"
               (snd (apply_theme save_config_returns "light"
                       default_window)))))
  = Some "#1db954".
Proof.
  assert (Hne : "light" <> "custom") by discriminate.
  destruct (accent_and_theme_do_not_commute save_config_returns
              "light" "#ff0000" default_window
              [ ("theme", "dark"); ("font_size", "12");
                ("accent_color", "#1db954"); ("custom_theme", "{}");
                ("window_opacity", "100") ] "#1db954" Hne eq_refl eq_refl)
    as (b & t & h & bu & p & _ & _ & _ & _ & _ & Hpal & _ & _ & _ & _ & _ & _
        & Hret & _).
  split; [exact (proj1 (Hret (fun _ => eq_refl)))|].
  rewrite Hpal. reflexivity.
Defined.

Lemma load_custom_theme_cases json (self : MainWindow) :
  load_custom_theme json self =
    (Ok (match fst (config_item "appearance" "custom_theme" self) with
         | Ok text =>
             match loads json text with
             | Ok theme => theme
             | Raised _ => []
             end
         | Raised _ => []
         end), self).
Proof.
  unfold load_custom_theme, Py.st_try, Py.st_bind, Py.st_lift, Py.st_ret.
  rewrite config_item_cases. cbn [fst].
  destruct (Py.get "appearance" (config self)) as [options|]; [|reflexivity].
  destruct (Py.get "custom_theme" options) as [text|]; [|reflexivity].
  destruct (loads json text); reflexivity.
Qed.

(** X21. [load_custom_theme] never raises and never changes the window:
    it returns the theme [json.loads] reads from
    [appearance/custom_theme], and the empty theme when the section or
    the option is missing or the text is not JSON. *)
Theorem load_custom_theme_never_raises (json : Json) (self : MainWindow) :
  snd (load_custom_theme json self) = self /\
  (exists theme, fst (load_custom_theme json self) = Ok theme) /\
  (Py.get "appearance" (config self) = None ->
   fst (load_custom_theme json self) = Ok []) /\
  (forall options,
     Py.get "appearance" (config self) = Some options ->
     Py.get "custom_theme" options = None ->
     fst (load_custom_theme json self) = Ok []) /\
  (forall options text,
     Py.get "appearance" (config self) = Some options ->
     Py.get "custom_theme" options = Some text ->
     fst (load_custom_theme json self)
     = Ok (match loads json text with Ok theme => theme | Raised _ => [] end)).
Proof.
  rewrite load_custom_theme_cases. cbn [fst snd].
  split; [reflexivity|]. split; [eexists; reflexivity|].
  rewrite config_item_cases. cbn [fst].
  split; [intros ->; reflexivity|].
  split.
  - intros options -> ->. reflexivity.
  - intros options text -> ->. reflexivity.
Qed.

(** X22. What [save_custom_theme] stores is what [load_custom_theme]
    returns: in a configuration with an appearance section, for every
    theme that [json.loads] reads back from its [json.dumps] text,
    loading after saving returns that theme, and it is also the custom
    theme of the window; this holds whether the theme could be applied or
    [save_custom_theme] raised out of [save_config] or [apply_theme]. *)
Theorem saved_custom_theme_is_loaded_back
    (json : Json) (save : MainWindow -> result unit)
    (theme : Theme) (self : MainWindow)
    (options : Py.dict string) :
  Py.get "appearance" (config self) = Some options ->
  loads json (dumps json theme) = Ok theme ->
  let w' := snd (save_custom_theme json save theme self) in
  fst (load_custom_theme json w') = Ok theme /\
  custom_theme w' = theme.
Proof.
  intros Hs Hjson w'. subst w'.
  destruct (save_custom_theme_stored json save theme self options Hs)
    as [Hct Hcfg].
  split; [|exact Hct].
  rewrite load_custom_theme_cases. cbn [fst].
  rewrite config_item_cases. cbn [fst]. rewrite Hcfg.
  rewrite !get_set_same. rewrite Hjson. reflexivity.
Qed.

Lemma saved_custom_theme_is_loaded_back_witness :
  loads keyvalue_json (dumps keyvalue_json (theme_or_dark "sunset"))
  = Ok (theme_or_dark "sunset") /\
  fst (load_custom_theme keyvalue_json
         (snd (save_custom_theme keyvalue_json save_config_undefined
                 (theme_or_dark "sunset") default_window)))
  = Ok [ ("base", "#2d3436"); ("text", "#ffeaa7"); ("highlight", "#e17055");
         ("button", "#3c4245"); ("panel", "#353b3c") ].
Proof.
  assert (Hjson : loads keyvalue_json
                    (dumps keyvalue_json (theme_or_dark "sunset"))
                  = Ok (theme_or_dark "sunset")) by reflexivity.
  split; [exact Hjson|].
  exact (proj1 (saved_custom_theme_is_loaded_back keyvalue_json
                  save_config_undefined
                  (theme_or_dark "sunset") default_window
                  [ ("theme", "dark"); ("font_size", "12");
                    ("accent_color", "#1db954"); ("custom_theme", "{}");
                    ("window_opacity", "100") ] eq_refl Hjson)).
Defined.

Lemma resolve_all_bound (namespace names : list string) :
  (forall name, In name names -> In name namespace) ->
  resolve namespace names = Ok tt.
Proof.
  induction names as [|name rest IH]; intros Hall; simpl.
  - reflexivity.
  - assert (Hin : existsb (String.eqb name) namespace = true).
    { apply existsb_exists. exists name.
      split; [apply Hall; left; reflexivity | apply String.eqb_refl]. }
    rewrite Hin. apply IH. intros n Hn. apply Hall. right. exact Hn.
Qed.

Lemma resolve_unbound (namespace names : list string) (name : string) :
  In name names -> ~ In name namespace ->
  exists e, resolve namespace names = Raised e.
Proof.
  induction names as [|first rest IH]; intros Hin Hnot; simpl.
  - destruct Hin.
  - destruct (existsb (String.eqb first) namespace) eqn:Hbound.
    + destruct Hin as [<-|Hin]; [|exact (IH Hin Hnot)].
      exfalso. apply Hnot.
      apply existsb_exists in Hbound. destruct Hbound as (n & Hn & Heq).
      apply String.eqb_eq in Heq. subst n. exact Hn.
    + eexists. reflexivity.
Qed.

(** With its three global names bound, [update_preview] in a module is
    [update_preview]. *)
Lemma update_preview_in_bound (namespace : list string) (self : ThemeEditor) :
  (forall name, In name update_preview_names -> In name namespace) ->
  update_preview_in namespace self = update_preview self.
Proof.
  intros Hall. unfold update_preview_in, update_preview.
  rewrite (resolve_all_bound namespace [ "QPixmap"; "QPainter" ])
    by (intros n Hn; apply Hall; simpl in *; tauto).
  rewrite (resolve_all_bound namespace [ "QColor" ])
    by (intros n Hn; apply Hall; simpl in *; tauto).
  unfold Py.st_bind, Py.st_lift, Py.st_gets.
  destruct (preview_colors (color_pickers self) []); reflexivity.
Qed.

(** X23. The theme editor cannot be built in this module: [setup_ui]
    uses [QGridLayout], which no import statement binds, so with the
    names the file binds the construction of a [ThemeEditor] ends in
    [NameError] before any button exists; every other global name that
    [setup_ui] and the [update_preview] it ends with look up is bound.
    In any module namespace that binds the eight global names of
    [setup_ui] and the three of [update_preview] ([QPixmap], [QPainter],
    [QColor]), the construction returns the editor with five unstyled
    buttons, the combo box on ["Custom"] and a black preview; in one that
    binds the eight but lacks one of the three, it raises. *)
Theorem theme_editor_needs_QGridLayout :
  ThemeEditor_init MODULE_NAMES
  = Raised "NameError: name 'QGridLayout' is not defined" /\
  (forall name, In name (setup_ui_names ++ update_preview_names) ->
                name <> "QGridLayout" -> In name MODULE_NAMES) /\
  (forall namespace : list string,
     (forall name, In name setup_ui_names -> In name namespace) ->
     (forall name, In name update_preview_names -> In name namespace) ->
     ThemeEditor_init namespace = Ok new_editor) /\
  (forall (namespace : list string) (name : string),
     (forall name, In name setup_ui_names -> In name namespace) ->
     In name update_preview_names -> ~ In name namespace ->
     exists e, ThemeEditor_init namespace = Raised e) /\
  ThemeEditor_init ("QGridLayout" :: MODULE_NAMES) = Ok new_editor.
Proof.
  split; [reflexivity|]. split; [|split; [|split]].
  - intros name Hin Hne. simpl in Hin.
    repeat (destruct Hin as [<-|Hin];
            [try (exfalso; apply Hne; reflexivity);
             unfold MODULE_NAMES; simpl; tauto|]).
    destruct Hin.
  - intros namespace Hsetup Hpreview. unfold ThemeEditor_init.
    rewrite (resolve_all_bound namespace setup_ui_names Hsetup).
    rewrite (update_preview_in_bound namespace _ Hpreview).
    reflexivity.
  - intros namespace name Hsetup Hin Hnot. unfold ThemeEditor_init.
    rewrite (resolve_all_bound namespace setup_ui_names Hsetup).
    unfold update_preview_in, Py.st_bind, Py.st_lift, Py.st_gets.
    destruct (resolve namespace [ "QPixmap"; "QPainter" ]) as [[]|e] eqn:Hfirst;
      [|exists e; reflexivity].
    cbn [color_pickers map color_names preview_colors Py.contains].
    destruct (resolve namespace [ "QColor" ]) as [[]|e] eqn:Hcolor.
    + exfalso.
      simpl in Hin. destruct Hin as [<-|[<-|[<-|[]]]].
      * destruct (resolve_unbound namespace [ "QPixmap"; "QPainter" ]
                    "QPixmap") as [e He]; [simpl; tauto | exact Hnot |].
        rewrite He in Hfirst. discriminate Hfirst.
      * destruct (resolve_unbound namespace [ "QPixmap"; "QPainter" ]
                    "QPainter") as [e He]; [simpl; tauto | exact Hnot |].
        rewrite He in Hfirst. discriminate Hfirst.
      * destruct (resolve_unbound namespace [ "QColor" ] "QColor")
          as [e He]; [simpl; tauto | exact Hnot |].
        rewrite He in Hcolor. discriminate Hcolor.
    + vm_compute. exists e. reflexivity.
  - reflexivity.
Qed.
